(** * People Portal UI: profile page and profile editor

    A shallow embedding of
      - [src/lib/validation.ts] (module [Validation]),
      - [src/components/fabric/DashboardPeopleInfo.tsx]
        (modules [Signature], [Modal] and [Dashboard]),
    together with the properties of the avatar pipeline, of the save
    transaction and of the role-entry view model. *)

From Stdlib Require Import NArith ZArith QArith String Ascii List HexadecimalString.
From Stdlib.Strings Require Import Byte.
From stdpp Require Import gmap strings list.

Local Open Scope string_scope.
Local Open Scope list_scope.

(** ** JavaScript values used by both files *)

(** A JavaScript string is a sequence of UTF-16 code units. *)
Abbreviation code_unit := N (only parsing).
Abbreviation jsstring := (list N) (only parsing).

(** Code units of a literal written with one-byte characters. *)
Definition js (s : string) : jsstring :=
  List.map N_of_ascii (list_ascii_of_string s).

(** Truthiness of a string: only the empty string is falsy. *)
Definition truthy (s : string) : bool :=
  match s with EmptyString => false | String _ _ => true end.

(** [a || b] on strings. *)
Definition or_str (a b : string) : string := if truthy a then a else b.

(** Truthiness of [string | undefined] (also used for [string | null]). *)
Definition truthy_opt (o : option string) : bool :=
  match o with Some s => truthy s | None => false end.

(** [a || b] where [a : string | undefined] and [b : string]. *)
Definition or_opt_str (a : option string) (b : string) : string :=
  match a with
  | Some s => if truthy s then s else b
  | None => b
  end.

(** [a || b] where both sides are [string | undefined]. *)
Definition or_opt (a b : option string) : option string :=
  if truthy_opt a then a else b.

(** ** src/lib/validation.ts *)

Module Validation.

(** The characters matched by [\s] and stripped by [String.prototype.trim]:
    ECMAScript WhiteSpace and LineTerminator code points (all of them lie in
    the basic plane, so they are single code units). *)
Definition isWhiteSpace (c : code_unit) : bool :=
  ((9 <=? c) && (c <=? 13)              (* TAB LF VT FF CR *)
   || (c =? 32)                         (* SPACE *)
   || (c =? 160)                        (* NO-BREAK SPACE *)
   || (c =? 5760)                       (* U+1680 *)
   || ((8192 <=? c) && (c <=? 8202))    (* U+2000 .. U+200A *)
   || (c =? 8232) || (c =? 8233)        (* U+2028 U+2029 *)
   || (c =? 8239)                       (* U+202F *)
   || (c =? 8287)                       (* U+205F *)
   || (c =? 12288)                      (* U+3000 *)
   || (c =? 65279))%N.                  (* U+FEFF *)

Fixpoint trimStart (s : jsstring) : jsstring :=
  match s with
  | [] => []
  | c :: r => if isWhiteSpace c then trimStart r else s
  end.

Definition trimEnd (s : jsstring) : jsstring := rev (trimStart (rev s)).

(** [s.trim()] *)
Definition trim (s : jsstring) : jsstring := trimEnd (trimStart s).

(** [s.split(/\s+/)]: the scanner walks the string from left to right;
    [cur] is the (reversed) piece read since the last separator and
    [inSep] tells whether the scanner is inside a run of whitespace, which
    the greedy [\s+] consumes as one separator.  The piece after the last
    separator is always pushed, so the empty string splits to [[""]]. *)
Fixpoint split_go (inSep : bool) (cur : jsstring) (s : jsstring)
  : list jsstring :=
  match s with
  | [] => [rev cur]
  | c :: r =>
      if isWhiteSpace c then
        if inSep then split_go true cur r
        else rev cur :: split_go true [] r
      else split_go false (c :: cur) r
  end.

Definition split_ws (s : jsstring) : list jsstring := split_go false [] s.

Record FullNameResult := {
  isValid : bool;
  error : option string
}.

Definition validateFullName (fullName : jsstring) : FullNameResult :=
  match fullName with
  | [] => {| isValid := false; error := Some "Full name is required" |}
  | _ =>
      let trimmed := trim fullName in
      let parts :=
        List.filter (fun part => (0 <? length part)%nat) (split_ws trimmed) in
      if (length parts <? 2)%nat then
        {| isValid := false;
           error := Some "Please provide both first and last name" |}
      else {| isValid := true; error := None |}
  end.

Definition nonws (c : code_unit) : Prop := isWhiteSpace c = false.

(** The words of the specification: the whitespace-delimited non-empty
    tokens of a string, read off from right to left.  A non-whitespace
    character either opens a new token (when whitespace or the end of the
    string follows) or extends the token that starts right after it. *)
Fixpoint ws_tokens (s : jsstring) : list jsstring :=
  match s with
  | [] => []
  | c :: r =>
      if isWhiteSpace c then ws_tokens r
      else
        match r with
        | [] => [[c]]
        | c' :: _ =>
            if isWhiteSpace c' then [c] :: ws_tokens r
            else
              match ws_tokens r with
              | t :: ts => (c :: t) :: ts
              | [] => [[c]]
              end
        end
  end.

End Validation.

(** ** Interfaces matching the backend (DashboardPeopleInfo.tsx) *)

Inductive TeamType := PROJECT | CORPORATE | BOOTCAMP | SERVICE.
Inductive SeasonType := FALL | SPRING.
Inductive ServiceSeasonType := ROLLING.

Module TeamAttributeDefinition.
Record t := {
  friendlyName : string;
  teamType : TeamType;
  seasonType : SeasonType + ServiceSeasonType;
  seasonYear : Z;
  description : string
}.
End TeamAttributeDefinition.

Module UserAttributeDefinition.
(** [roles] is a JavaScript object used as a dictionary; it is kept as the
    list that [Object.entries] enumerates.  [expectedGrad] arrives as a
    JSON string. *)
Record t := {
  major : string;
  expectedGrad : string;
  phoneNumber : string;
  roles : list (string * string);
  alumniAccount : bool;
  avatar : option string
}.
End UserAttributeDefinition.

Module UMDApiMajorListResponse.
Record t := {
  college : string;
  major_id : string;
  name : string;
  url : string
}.
End UMDApiMajorListResponse.

Module GroupInfo.
Record t := {
  name : string;
  pk : string;
  attributes : TeamAttributeDefinition.t
}.
End GroupInfo.

Module UserInformationDetail.
(** [UserInformationBrief] followed by the fields the detail adds. *)
Record t := {
  pk : string;
  username : string;
  name : string;
  email : string;
  memberSince : string;
  active : bool;
  attributes : UserAttributeDefinition.t;
  is_superuser : bool;
  avatar : string;
  groups : list string;
  last_login : string;
  type : string;
  groupsInfo : list GroupInfo.t
}.
End UserInformationDetail.

Module TeamInformationBrief.
Record t := {
  name : string;
  pk : string;
  parent : option string;
  teamType : TeamType;
  seasonType : SeasonType + ServiceSeasonType;
  seasonYear : Z;
  description : string;
  friendlyName : string;
  peoplePortalCreation : bool
}.
End TeamInformationBrief.

(** ** validateFileSignature *)

Module Signature.

(** A [File]: declared MIME type, size in bytes and content.  The content is
    given by offset, bytes at or beyond [size] are never read. *)
Record File := {
  name : string;
  type : string;
  size : N;
  byteAt : N -> byte
}.

(** [file.slice(start, end)]: both ends are clamped to the size. *)
Definition slice (file : File) (start end_ : N) : list byte :=
  let s := N.min start (size file) in
  let e := N.min end_ (size file) in
  List.map (fun i => byteAt file (s + N.of_nat i)) (seq 0 (N.to_nat (e - s))).

(** [Uint8Array.prototype.subarray(0, n)] *)
Definition subarray0 (n : nat) (arr : list byte) : list byte := take n arr.

(** [Number.prototype.toString(16)] on a non-negative integer: lower-case
    digits, no padding. *)
Definition toString16 (n : N) : string :=
  NilZero.string_of_uint (N.to_hex_uint n).

(** [header.startsWith(p)] *)
Definition startsWith (header p : string) : bool := String.prefix p header.

(** The [for] loop that appends one rendered byte after the other. *)
Definition hexHeader (arr : list byte) : string :=
  fold_left (fun header b => header +:+ toString16 (Byte.to_N b)) arr "".

(** The body of [reader.onloadend].  [result] is [e.target.result]: [None]
    when the read failed ([null]), the bytes of the array buffer otherwise
    (an [ArrayBuffer] is truthy even when it is empty). *)
Definition onloadend (result : option (list byte)) : bool :=
  match result with
  | None => false
  | Some buf =>
      let arr := subarray0 4 buf in
      let header := hexHeader arr in
      if startsWith header "89504e47" then true          (* PNG *)
      else if startsWith header "ffd8ff" then true       (* JPEG *)
      else if startsWith header "47494638" then true     (* GIF *)
      else if startsWith header "52494646" then true     (* RIFF (WebP) *)
      else false
  end.

(** [readable] tells whether the [FileReader] manages to read the blob. *)
Definition readAsArrayBuffer (readable : bool) (blob : list byte)
  : option (list byte) :=
  if readable then Some blob else None.

Definition validateFileSignature (readable : bool) (file : File) : bool :=
  onloadend (readAsArrayBuffer readable (slice file 0 4)).

(** The magic numbers as bytes, and what it means for the first bytes of a
    file to match one of them (the words of the specification). *)
Definition magicNumbers : list (list byte) :=
  [ [x89; x50; x4e; x47];      (* PNG *)
    [xff; xd8; xff];           (* JPEG *)
    [x47; x49; x46; x38];      (* GIF *)
    [x52; x49; x46; x46] ].    (* RIFF (WebP) *)

Fixpoint bytes_prefix (p l : list byte) : bool :=
  match p, l with
  | [], _ => true
  | _ :: _, [] => false
  | a :: p', b :: l' => Byte.eqb a b && bytes_prefix p' l'
  end.

Definition matchesMagic (first4 : list byte) : bool :=
  existsb (fun m => bytes_prefix m first4) magicNumbers.

End Signature.

(** ** DashboardPeopleInfo: page state and role entries *)

Module Dashboard.

Record State := {
  user : option UserInformationDetail.t;
  userTeamsMap : gmap string TeamInformationBrief.t;
  loading : bool;
  isEditModalOpen : bool
}.

(** The state of the first render. *)
Definition initial : State :=
  {| user := None; userTeamsMap := ∅; loading := true;
     isEditModalOpen := false |}.

Definition setUser (u : option UserInformationDetail.t) (s : State) : State :=
  {| user := u; userTeamsMap := userTeamsMap s; loading := loading s;
     isEditModalOpen := isEditModalOpen s |}.

Definition setUserTeamsMap (m : gmap string TeamInformationBrief.t)
  (s : State) : State :=
  {| user := user s; userTeamsMap := m; loading := loading s;
     isEditModalOpen := isEditModalOpen s |}.

Definition setIsEditModalOpen (b : bool) (s : State) : State :=
  {| user := user s; userTeamsMap := userTeamsMap s; loading := loading s;
     isEditModalOpen := b |}.

(** The loop of [fetchData] that fills [teamsMap]: one [Map.set] per team
    of the membership response, later teams overwrite earlier ones. *)
Definition buildTeamsMap (teams : list TeamInformationBrief.t)
  : gmap string TeamInformationBrief.t :=
  fold_left (fun teamsMap team => <[TeamInformationBrief.pk team := team]> teamsMap)
            teams ∅.

Record RoleEntry := {
  teamPk : string;
  roleTitle : string;
  teamInfo : option TeamInformationBrief.t
}.

(** [Object.entries(attributes?.roles || {}).map(...).filter(...)] *)
Definition roleEntries (roles : list (string * string))
  (userTeamsMap : gmap string TeamInformationBrief.t) : list RoleEntry :=
  List.filter
    (fun entry => match teamInfo entry with Some _ => true | None => false end)
    (List.map
       (fun '(teamPk, roleTitle) =>
          {| teamPk := teamPk; roleTitle := roleTitle;
             teamInfo := userTeamsMap !! teamPk |})
       roles).

End Dashboard.

(** ** EditProfileModal *)

Module Modal.

Record Point := { point_x : Q; point_y : Q }.
Record Area := { area_x : Z; area_y : Z; width : Z; height : Z }.

Record Blob := { blob_data : list byte; blob_type : string }.

(** [new File([blob], name, { type })] *)
Definition newFile (blob : Blob) (name type : string) : Signature.File :=
  {| Signature.name := name;
     Signature.type := type;
     Signature.size := N.of_nat (length (blob_data blob));
     Signature.byteAt := fun i => nth (N.to_nat i) (blob_data blob) x00 |}.

(** The [useState] cells of the modal, and the value of the file input that
    [fileUploadRef] points to ([None] while the input is not mounted). *)
Record State := {
  phoneNumber : string;
  expectedGrad : string;
  selectedMajor : option UMDApiMajorListResponse.t;
  majors : list UMDApiMajorListResponse.t;
  majorListOpen : bool;
  isSaving : bool;
  preview : option string;
  avatarKey : option string;
  isUploading : bool;
  fileUploadRef : option string;
  cropImage : option string;
  crop : Point;
  zoom : Q;
  croppedAreaPixels : option Area;
  isCroppingOpen : bool
}.

(** A thrown value, seen through its [message] property. *)
Inductive result (A : Type) :=
  | Ok (a : A)
  | Throw (message : option string).
Arguments Ok {A} a.
Arguments Throw {A} message.

(** The outcome of [await fetch(...)]: the promise rejects, or it resolves to
    a response with its [ok] flag and what [await res.json()] gives. *)
Inductive FetchResult (B : Type) :=
  | Rejects (message : option string)
  | Resolves (ok : bool) (json : result B).
Arguments Rejects {B} message.
Arguments Resolves {B} ok json.

(** Response of the upload-URL endpoint. *)
Record UploadTarget := {
  uploadUrl : string;
  key : string;
  fields : list (string * string)
}.

Inductive FormValue := FormString (s : string) | FormFile (f : Signature.File).
Definition FormData := list (string * FormValue).

(** Body of the PATCH request; [None] is [undefined], which
    [JSON.stringify] leaves out.  [body_expectedGrad] holds the string that
    [new Date] is applied to. *)
Record PatchBody := {
  body_major : option string;
  body_phoneNumber : string;
  body_expectedGrad : option string;
  body_avatar : option string
}.

(** Error body of a failed PATCH: [err.message]. *)
Record ErrorBody := { message : option string }.

Record CompressionOptions := {
  maxSizeMB : Q;
  maxWidthOrHeight : Z;
  useWebWorker : bool;
  initialQuality : Q;
  fileType : string
}.

(** What the handlers obtain from the browser, the libraries and the
    network.  [PEOPLEPORTAL_SERVER_ENDPOINT] is the constant of
    [@/commons/config]; [format_yyyy_MM_dd s] is date-fns'
    [format(new Date(s), 'yyyy-MM-dd')], which throws on an invalid date. *)
Record Env := {
  PEOPLEPORTAL_SERVER_ENDPOINT : string;
  format_yyyy_MM_dd : string -> result string;
  fileReadable : Signature.File -> bool;
  readAsDataURL : Signature.File -> option string;
  imageLoads : string -> bool;
  getContext2d : bool;
  canvasToBlob : string -> Area -> option Blob;
  imageCompression : Signature.File -> CompressionOptions -> result Blob;
  createObjectURL : Signature.File -> string;
  fetchUploadUrl : string -> FetchResult UploadTarget;
  fetchPost : string -> FormData -> FetchResult unit;
  fetchPatch : string -> PatchBody -> FetchResult ErrorBody;
  fetchMajors : FetchResult (list UMDApiMajorListResponse.t)
}.

Inductive ToastKind := ToastInfo | ToastSuccess | ToastError.

(** What a handler does that is visible outside the component state. *)
Inductive Event :=
  | EvToast (kind : ToastKind) (title : string) (description : option string)
  | EvReadAsArrayBuffer (blob : list byte)
  | EvReadAsDataURL (fileName : string)
  | EvFetch (method url : string)
  | EvOnSuccess (updatedUser : UserInformationDetail.t)
  | EvOnClose.

Record World := {
  dash : Dashboard.State;
  modal : State;
  trace : list Event
}.

(** *** The monad of the handlers: component state, trace, exceptions *)

Definition M (A : Type) : Type := World -> result A * World.

Definition ret {A} (a : A) : M A := fun w => (Ok a, w).

Definition bind {A B} (m : M A) (k : A -> M B) : M B :=
  fun w =>
    match m w with
    | (Ok a, w') => k a w'
    | (Throw e, w') => (Throw e, w')
    end.

#[global] Instance M_ret : MRet M := @ret.
#[global] Instance M_bind : MBind M := fun A B k m => bind m k.

(** [throw new Error(message)] *)
Definition throw {A} (message : option string) : M A :=
  fun w => (Throw message, w).

(** [await p] for a promise whose outcome is known to the environment. *)
Definition await {A} (r : result A) : M A := fun w => (r, w).

(** [try { body } catch (e) { handler(e.message) } finally { cleanup }] *)
Definition try_catch_finally (body : M unit)
  (handler : option string -> M unit) (cleanup : M unit) : M unit :=
  fun w =>
    let '(r, w1) :=
      match body w with
      | (Ok a, w') => (Ok a, w')
      | (Throw e, w') => handler e w'
      end in
    match cleanup w1 with
    | (Ok _, w2) => (r, w2)
    | (Throw e, w2) => (Throw e, w2)
    end.

Definition emit (ev : Event) : M unit :=
  fun w =>
    (Ok tt, {| dash := dash w; modal := modal w; trace := trace w ++ [ev] |}).

Definition modify (f : State -> State) : M unit :=
  fun w =>
    (Ok tt, {| dash := dash w; modal := f (modal w); trace := trace w |}).

Definition modifyDash (f : Dashboard.State -> Dashboard.State) : M unit :=
  fun w =>
    (Ok tt, {| dash := f (dash w); modal := modal w; trace := trace w |}).

(** The values a handler closes over: the state of the render in which the
    handler was created. *)
Definition getState : M State := fun w => (Ok (modal w), w).

(** [await fetch(url, ...)] *)
Definition fetch {B} (method url : string) (outcome : FetchResult B)
  : M (bool * result B) :=
  emit (EvFetch method url);;
  match outcome with
  | Rejects e => throw e
  | Resolves ok json => mret (ok, json)
  end.

Definition toast_info (title : string) : M unit :=
  emit (EvToast ToastInfo title None).
Definition toast_success (title : string) : M unit :=
  emit (EvToast ToastSuccess title None).
Definition toast_error (title : string) (description : option string)
  : M unit :=
  emit (EvToast ToastError title description).

(** *** State setters *)

Definition setPhoneNumber (v : string) (s : State) : State :=
  {| phoneNumber := v; expectedGrad := expectedGrad s;
     selectedMajor := selectedMajor s; majors := majors s;
     majorListOpen := majorListOpen s; isSaving := isSaving s;
     preview := preview s; avatarKey := avatarKey s;
     isUploading := isUploading s; fileUploadRef := fileUploadRef s;
     cropImage := cropImage s; crop := crop s; zoom := zoom s;
     croppedAreaPixels := croppedAreaPixels s;
     isCroppingOpen := isCroppingOpen s |}.

Definition setExpectedGrad (v : string) (s : State) : State :=
  {| phoneNumber := phoneNumber s; expectedGrad := v;
     selectedMajor := selectedMajor s; majors := majors s;
     majorListOpen := majorListOpen s; isSaving := isSaving s;
     preview := preview s; avatarKey := avatarKey s;
     isUploading := isUploading s; fileUploadRef := fileUploadRef s;
     cropImage := cropImage s; crop := crop s; zoom := zoom s;
     croppedAreaPixels := croppedAreaPixels s;
     isCroppingOpen := isCroppingOpen s |}.

Definition setSelectedMajor (v : option UMDApiMajorListResponse.t) (s : State) : State :=
  {| phoneNumber := phoneNumber s; expectedGrad := expectedGrad s;
     selectedMajor := v; majors := majors s;
     majorListOpen := majorListOpen s; isSaving := isSaving s;
     preview := preview s; avatarKey := avatarKey s;
     isUploading := isUploading s; fileUploadRef := fileUploadRef s;
     cropImage := cropImage s; crop := crop s; zoom := zoom s;
     croppedAreaPixels := croppedAreaPixels s;
     isCroppingOpen := isCroppingOpen s |}.

Definition setMajors (v : list UMDApiMajorListResponse.t) (s : State) : State :=
  {| phoneNumber := phoneNumber s; expectedGrad := expectedGrad s;
     selectedMajor := selectedMajor s; majors := v;
     majorListOpen := majorListOpen s; isSaving := isSaving s;
     preview := preview s; avatarKey := avatarKey s;
     isUploading := isUploading s; fileUploadRef := fileUploadRef s;
     cropImage := cropImage s; crop := crop s; zoom := zoom s;
     croppedAreaPixels := croppedAreaPixels s;
     isCroppingOpen := isCroppingOpen s |}.

Definition setMajorListOpen (v : bool) (s : State) : State :=
  {| phoneNumber := phoneNumber s; expectedGrad := expectedGrad s;
     selectedMajor := selectedMajor s; majors := majors s;
     majorListOpen := v; isSaving := isSaving s; preview := preview s;
     avatarKey := avatarKey s; isUploading := isUploading s;
     fileUploadRef := fileUploadRef s; cropImage := cropImage s;
     crop := crop s; zoom := zoom s;
     croppedAreaPixels := croppedAreaPixels s;
     isCroppingOpen := isCroppingOpen s |}.

Definition setIsSaving (v : bool) (s : State) : State :=
  {| phoneNumber := phoneNumber s; expectedGrad := expectedGrad s;
     selectedMajor := selectedMajor s; majors := majors s;
     majorListOpen := majorListOpen s; isSaving := v; preview := preview s;
     avatarKey := avatarKey s; isUploading := isUploading s;
     fileUploadRef := fileUploadRef s; cropImage := cropImage s;
     crop := crop s; zoom := zoom s;
     croppedAreaPixels := croppedAreaPixels s;
     isCroppingOpen := isCroppingOpen s |}.

Definition setPreview (v : option string) (s : State) : State :=
  {| phoneNumber := phoneNumber s; expectedGrad := expectedGrad s;
     selectedMajor := selectedMajor s; majors := majors s;
     majorListOpen := majorListOpen s; isSaving := isSaving s; preview := v;
     avatarKey := avatarKey s; isUploading := isUploading s;
     fileUploadRef := fileUploadRef s; cropImage := cropImage s;
     crop := crop s; zoom := zoom s;
     croppedAreaPixels := croppedAreaPixels s;
     isCroppingOpen := isCroppingOpen s |}.

Definition setAvatarKey (v : option string) (s : State) : State :=
  {| phoneNumber := phoneNumber s; expectedGrad := expectedGrad s;
     selectedMajor := selectedMajor s; majors := majors s;
     majorListOpen := majorListOpen s; isSaving := isSaving s;
     preview := preview s; avatarKey := v; isUploading := isUploading s;
     fileUploadRef := fileUploadRef s; cropImage := cropImage s;
     crop := crop s; zoom := zoom s;
     croppedAreaPixels := croppedAreaPixels s;
     isCroppingOpen := isCroppingOpen s |}.

Definition setIsUploading (v : bool) (s : State) : State :=
  {| phoneNumber := phoneNumber s; expectedGrad := expectedGrad s;
     selectedMajor := selectedMajor s; majors := majors s;
     majorListOpen := majorListOpen s; isSaving := isSaving s;
     preview := preview s; avatarKey := avatarKey s; isUploading := v;
     fileUploadRef := fileUploadRef s; cropImage := cropImage s;
     crop := crop s; zoom := zoom s;
     croppedAreaPixels := croppedAreaPixels s;
     isCroppingOpen := isCroppingOpen s |}.

Definition setFileInputValue (v : option string) (s : State) : State :=
  {| phoneNumber := phoneNumber s; expectedGrad := expectedGrad s;
     selectedMajor := selectedMajor s; majors := majors s;
     majorListOpen := majorListOpen s; isSaving := isSaving s;
     preview := preview s; avatarKey := avatarKey s;
     isUploading := isUploading s; fileUploadRef := v;
     cropImage := cropImage s; crop := crop s; zoom := zoom s;
     croppedAreaPixels := croppedAreaPixels s;
     isCroppingOpen := isCroppingOpen s |}.

Definition setCropImage (v : option string) (s : State) : State :=
  {| phoneNumber := phoneNumber s; expectedGrad := expectedGrad s;
     selectedMajor := selectedMajor s; majors := majors s;
     majorListOpen := majorListOpen s; isSaving := isSaving s;
     preview := preview s; avatarKey := avatarKey s;
     isUploading := isUploading s; fileUploadRef := fileUploadRef s;
     cropImage := v; crop := crop s; zoom := zoom s;
     croppedAreaPixels := croppedAreaPixels s;
     isCroppingOpen := isCroppingOpen s |}.

Definition setCrop (v : Point) (s : State) : State :=
  {| phoneNumber := phoneNumber s; expectedGrad := expectedGrad s;
     selectedMajor := selectedMajor s; majors := majors s;
     majorListOpen := majorListOpen s; isSaving := isSaving s;
     preview := preview s; avatarKey := avatarKey s;
     isUploading := isUploading s; fileUploadRef := fileUploadRef s;
     cropImage := cropImage s; crop := v; zoom := zoom s;
     croppedAreaPixels := croppedAreaPixels s;
     isCroppingOpen := isCroppingOpen s |}.

Definition setZoom (v : Q) (s : State) : State :=
  {| phoneNumber := phoneNumber s; expectedGrad := expectedGrad s;
     selectedMajor := selectedMajor s; majors := majors s;
     majorListOpen := majorListOpen s; isSaving := isSaving s;
     preview := preview s; avatarKey := avatarKey s;
     isUploading := isUploading s; fileUploadRef := fileUploadRef s;
     cropImage := cropImage s; crop := crop s; zoom := v;
     croppedAreaPixels := croppedAreaPixels s;
     isCroppingOpen := isCroppingOpen s |}.

Definition setCroppedAreaPixels (v : option Area) (s : State) : State :=
  {| phoneNumber := phoneNumber s; expectedGrad := expectedGrad s;
     selectedMajor := selectedMajor s; majors := majors s;
     majorListOpen := majorListOpen s; isSaving := isSaving s;
     preview := preview s; avatarKey := avatarKey s;
     isUploading := isUploading s; fileUploadRef := fileUploadRef s;
     cropImage := cropImage s; crop := crop s; zoom := zoom s;
     croppedAreaPixels := v; isCroppingOpen := isCroppingOpen s |}.

Definition setIsCroppingOpen (v : bool) (s : State) : State :=
  {| phoneNumber := phoneNumber s; expectedGrad := expectedGrad s;
     selectedMajor := selectedMajor s; majors := majors s;
     majorListOpen := majorListOpen s; isSaving := isSaving s;
     preview := preview s; avatarKey := avatarKey s;
     isUploading := isUploading s; fileUploadRef := fileUploadRef s;
     cropImage := cropImage s; crop := crop s; zoom := zoom s;
     croppedAreaPixels := croppedAreaPixels s; isCroppingOpen := v |}.

(** *** getCroppedImg *)

(** The promise of [getCroppedImg]: [image.onerror] rejects with the error
    event (which carries no [message]); without a 2d context, or when
    [canvas.toBlob] hands over [null], it rejects with an [Error]. *)
Definition getCroppedImg (env : Env) (imageSrc : string) (pixelCrop : Area)
  : result Blob :=
  if imageLoads env imageSrc then
    if getContext2d env then
      match canvasToBlob env imageSrc pixelCrop with
      | None => Throw (Some "Canvas is empty")
      | Some blob => Ok blob
      end
    else Throw (Some "No 2d context")
  else Throw None.

(** *** encodeURIComponent, on one-byte characters *)

Definition isUnreserved (a : ascii) : bool :=
  let n := N_of_ascii a in
  ((65 <=? n) && (n <=? 90) || (97 <=? n) && (n <=? 122)
   || (48 <=? n) && (n <=? 57))%N
  || existsb (Ascii.eqb a) (list_ascii_of_string "-_.!~*'()").

Definition hexDigitUpper (n : N) : ascii :=
  if (n <? 10)%N then ascii_of_N (48 + n) else ascii_of_N (55 + n).

Definition percentEncode (a : ascii) : string :=
  let n := N_of_ascii a in
  String "%" (String (hexDigitUpper (n / 16)) (String (hexDigitUpper (n mod 16)) "")).

Fixpoint encodeURIComponent (s : string) : string :=
  match s with
  | EmptyString => ""
  | String a r =>
      (if isUnreserved a then String a "" else percentEncode a)
      +:+ encodeURIComponent r
  end.

(** *** The component: initial state and effect *)

(** The initial values given to [useState]; the render throws when
    [format] does. *)
Definition initialState (env : Env) (user : UserInformationDetail.t)
  : result State :=
  let attributes := UserInformationDetail.attributes user in
  let expectedGrad0 :=
    if truthy (UserAttributeDefinition.expectedGrad attributes)
    then format_yyyy_MM_dd env (UserAttributeDefinition.expectedGrad attributes)
    else Ok "" in
  match expectedGrad0 with
  | Throw e => Throw e
  | Ok expectedGrad0 =>
      Ok {| phoneNumber := UserAttributeDefinition.phoneNumber attributes;
            expectedGrad := expectedGrad0;
            selectedMajor := None;
            majors := [];
            majorListOpen := false;
            isSaving := false;
            preview := Some (UserInformationDetail.avatar user);
            avatarKey := UserAttributeDefinition.avatar attributes;
            isUploading := false;
            fileUploadRef := Some "";
            cropImage := None;
            crop := {| point_x := 0; point_y := 0 |};
            zoom := 1;
            croppedAreaPixels := None;
            isCroppingOpen := false |}
  end.

(** The [useEffect] that loads the list of majors and preselects the major
    of the user. *)
Definition majorsEffect (env : Env) (user : UserInformationDetail.t)
  : M unit :=
  try_catch_finally
    ('(_, json) ← fetch "GET" "https://api.umd.io/v1/majors/list"
                       (fetchMajors env);
     data ← await json;
     modify (setMajors data);;
     match
       find (fun m =>
               String.eqb (UMDApiMajorListResponse.name m)
                 (UserAttributeDefinition.major
                    (UserInformationDetail.attributes user)))
            data
     with
     | Some currentMajor => modify (setSelectedMajor (Some currentMajor))
     | None => mret tt
     end)
    (fun _ => toast_error "Failed to fetch majors" None)
    (mret tt).

(** *** onFileChange *)

Definition allowedTypes : list string :=
  ["image/jpeg"; "image/png"; "image/webp"; "image/gif"].

(** [await validateFileSignature(file)], with the read it performs. *)
Definition awaitValidateFileSignature (env : Env) (file : Signature.File)
  : M bool :=
  emit (EvReadAsArrayBuffer (Signature.slice file 0 4));;
  mret (Signature.validateFileSignature (fileReadable env file) file).

(** [file] is [e.target.files?.[0]]. *)
Definition onFileChange (env : Env) (file : option Signature.File) : M unit :=
  match file with
  | None => mret tt
  | Some file =>
      if negb (existsb (String.eqb (Signature.type file)) allowedTypes) then
        toast_error "Invalid file type"
          (Some "Please upload an image (JPEG, PNG, WEBP, GIF)")
      else
        isValidSignature ← awaitValidateFileSignature env file;
        if negb isValidSignature then
          toast_error "Invalid file content"
            (Some "The file content does not match its extension.")
        else if (20 * 1024 * 1024 <? Signature.size file)%N then
          toast_error "File is too large!" (Some "Maximum file size is 20MB")
        else
          modify (setCrop {| point_x := 0; point_y := 0 |});;
          modify (setZoom 1);;
          modify (setCroppedAreaPixels None);;
          emit (EvReadAsDataURL (Signature.name file));;
          match readAsDataURL env file with
          | None => mret tt
          | Some dataURL =>
              modify (setCropImage (Some dataURL));;
              modify (setIsCroppingOpen true);;
              modify (fun s =>
                        match fileUploadRef s with
                        | Some _ => setFileInputValue (Some "") s
                        | None => s
                        end)
          end
  end.

(** *** processAndUploadAvatar *)

Definition compressionOptions : CompressionOptions :=
  {| maxSizeMB := 45 # 100;
     maxWidthOrHeight := 512;
     useWebWorker := true;
     initialQuality := 8 # 10;
     fileType := "image/webp" |}.

Definition uploadUrlRequest (env : Env) (uploadFile : Signature.File)
  : string :=
  PEOPLEPORTAL_SERVER_ENDPOINT env
  +:+ "/api/org/people/avatar/self/upload-url?fileName="
  +:+ encodeURIComponent (Signature.name uploadFile)
  +:+ "&contentType="
  +:+ encodeURIComponent (Signature.type uploadFile).

(** [formData]: every entry of [fields], then the file under ["file"]. *)
Definition uploadFormData (fields : list (string * string))
  (uploadFile : Signature.File) : FormData :=
  List.map (fun '(k, v) => (k, FormString v)) fields
  ++ [("file", FormFile uploadFile)].

(** The [try] block. *)
Definition uploadBody (env : Env) (cropImage : string)
  (croppedAreaPixels : Area) : M unit :=
  croppedBlob ← await (getCroppedImg env cropImage croppedAreaPixels);
  compressedBlob ←
    await (imageCompression env (newFile croppedBlob "avatar.webp" "image/webp")
             compressionOptions);
  let uploadFile := newFile compressedBlob "avatar.webp" "image/webp" in
  let url := createObjectURL env uploadFile in
  modify (setPreview (Some url));;
  '(ok, json) ← fetch "GET" (uploadUrlRequest env uploadFile)
                   (fetchUploadUrl env (uploadUrlRequest env uploadFile));
  if negb ok then throw (Some "Failed to get upload URL")
  else
    target ← await json;
    let formData := uploadFormData (fields target) uploadFile in
    '(uploadOk, _) ← fetch "POST" (uploadUrl target)
                        (fetchPost env (uploadUrl target) formData);
    if negb uploadOk then throw (Some "Failed to upload to S3")
    else
      modify (setAvatarKey (Some (key target)));;
      toast_success "Profile picture updated!".

Definition processAndUploadAvatar (env : Env) : M unit :=
  closure ← getState;
  match cropImage closure, croppedAreaPixels closure with
  | Some cropImage, Some croppedAreaPixels =>
      if negb (truthy cropImage) then mret tt
      else
        toast_info "Processing image...";;
        modify (setIsUploading true);;
        modify (setIsCroppingOpen false);;
        try_catch_finally
          (uploadBody env cropImage croppedAreaPixels)
          (fun message => toast_error "Upload failed" message)
          (modify (setIsUploading false);; modify (setCropImage None))
  | _, _ => mret tt
  end.

(** *** handleSave *)

Definition onSuccess (updatedUser : UserInformationDetail.t) : M unit :=
  emit (EvOnSuccess updatedUser);;
  modifyDash (Dashboard.setUser (Some updatedUser)).

Definition onClose : M unit :=
  emit EvOnClose;;
  modifyDash (Dashboard.setIsEditModalOpen false).

Definition patchBody (closure : State) : PatchBody :=
  {| body_major := UMDApiMajorListResponse.name <$> selectedMajor closure;
     body_phoneNumber := phoneNumber closure;
     body_expectedGrad :=
       if truthy (expectedGrad closure) then Some (expectedGrad closure)
       else None;
     body_avatar := avatarKey closure |}.

(** The record handed to [onSuccess]. *)
Definition mergedUser (user : UserInformationDetail.t) (closure : State)
  : UserInformationDetail.t :=
  let attributes := UserInformationDetail.attributes user in
  {| UserInformationDetail.pk := UserInformationDetail.pk user;
     UserInformationDetail.username := UserInformationDetail.username user;
     UserInformationDetail.name := UserInformationDetail.name user;
     UserInformationDetail.email := UserInformationDetail.email user;
     UserInformationDetail.memberSince := UserInformationDetail.memberSince user;
     UserInformationDetail.active := UserInformationDetail.active user;
     UserInformationDetail.attributes :=
       {| UserAttributeDefinition.major :=
            or_opt_str (UMDApiMajorListResponse.name <$> selectedMajor closure)
              (UserAttributeDefinition.major attributes);
          UserAttributeDefinition.expectedGrad :=
            or_str (expectedGrad closure)
              (UserAttributeDefinition.expectedGrad attributes);
          UserAttributeDefinition.phoneNumber := phoneNumber closure;
          UserAttributeDefinition.roles := UserAttributeDefinition.roles attributes;
          UserAttributeDefinition.alumniAccount :=
            UserAttributeDefinition.alumniAccount attributes;
          UserAttributeDefinition.avatar :=
            or_opt (avatarKey closure) (UserAttributeDefinition.avatar attributes) |};
     UserInformationDetail.is_superuser := UserInformationDetail.is_superuser user;
     UserInformationDetail.avatar :=
       or_opt_str (preview closure) (UserInformationDetail.avatar user);
     UserInformationDetail.groups := UserInformationDetail.groups user;
     UserInformationDetail.last_login := UserInformationDetail.last_login user;
     UserInformationDetail.type := UserInformationDetail.type user;
     UserInformationDetail.groupsInfo := UserInformationDetail.groupsInfo user |}.

Definition patchUrl (env : Env) (user : UserInformationDetail.t) : string :=
  PEOPLEPORTAL_SERVER_ENDPOINT env +:+ "/api/org/people/"
  +:+ UserInformationDetail.pk user.

Definition handleSave (env : Env) (user : UserInformationDetail.t) : M unit :=
  closure ← getState;
  modify (setIsSaving true);;
  try_catch_finally
    ('(ok, json) ← fetch "PATCH" (patchUrl env user)
                      (fetchPatch env (patchUrl env user) (patchBody closure));
     (if negb ok then
        err ← await json;
        throw (Some (or_opt_str (message err) "Failed to update profile"))
      else mret tt);;
     toast_success "Profile updated successfully!";;
     onSuccess (mergedUser user closure);;
     onClose)
    (fun message => toast_error "Save failed" message)
    (modify (setIsSaving false)).

(** Running a handler from a state of the page and of the modal. *)
Definition run {A} (m : M A) (d : Dashboard.State) (s : State)
  : result A * World :=
  m {| dash := d; modal := s; trace := [] |}.

End Modal.

(** ** Outcomes of the requests, as the properties below name them *)

Module Outcome.
Import Modal.

(** The request for an upload URL fails when [fetch] rejects, when the
    status is not a success, or when the body cannot be read. *)
Definition uploadUrlFailed (r : FetchResult UploadTarget) : bool :=
  match r with
  | Resolves true (Ok _) => false
  | _ => true
  end.

(** The POST to the storage, or the PATCH of the profile, fails when
    [fetch] rejects or when the status is not a success. *)
Definition requestFailed {B} (r : FetchResult B) : bool :=
  match r with
  | Resolves true _ => false
  | _ => true
  end.

(** The URL of the upload-URL request: the uploaded file is always named
    "avatar.webp" and typed "image/webp". *)
Definition avatarUploadUrl (env : Env) : string :=
  PEOPLEPORTAL_SERVER_ENDPOINT env
  +:+ "/api/org/people/avatar/self/upload-url?fileName=avatar.webp&contentType=image%2Fwebp".

End Outcome.

(** ** DashboardPeopleInfo: the effect that loads the user and the teams *)

Module Page.
Import Modal.

(** Body of [GET /api/org/people/{username}/memberof]; [teams] may be
    missing, in which case the loop runs over the empty array. *)
Record TeamsData := { teams : option (list TeamInformationBrief.t) }.

Record Env := {
  SERVER_ENDPOINT : string;
  fetchUser : string -> FetchResult UserInformationDetail.t;
  fetchMemberOf : string -> FetchResult TeamsData
}.

(** Requests (with their [credentials: 'include'] flag) and what is
    written with [console.error]. *)
Inductive Event :=
  | EvRequest (url : string) (credentials : bool)
  | EvConsoleError (message : option string).

Definition setLoading (b : bool) (s : Dashboard.State) : Dashboard.State :=
  {| Dashboard.user := Dashboard.user s;
     Dashboard.userTeamsMap := Dashboard.userTeamsMap s;
     Dashboard.loading := b;
     Dashboard.isEditModalOpen := Dashboard.isEditModalOpen s |}.

Definition userUrl (env : Env) (userPk : string) : string :=
  SERVER_ENDPOINT env +:+ "/api/org/people/" +:+ userPk.

Definition memberOfUrl (env : Env) (userData : UserInformationDetail.t)
  : string :=
  SERVER_ENDPOINT env +:+ "/api/org/people/"
  +:+ UserInformationDetail.username userData +:+ "/memberof".

(** The [try] block of [fetchData]: the outcome, the state and the events. *)
Definition fetchDataBody (env : Env) (userPk : string) (s : Dashboard.State)
  : result unit * Dashboard.State * list Event :=
  let request1 := EvRequest (userUrl env userPk) false in
  match fetchUser env (userUrl env userPk) with
  | Rejects e => (Throw e, s, [request1])
  | Resolves false _ => (Throw (Some "Failed to fetch user"), s, [request1])
  | Resolves true (Throw e) => (Throw e, s, [request1])
  | Resolves true (Ok userData) =>
      let s1 := Dashboard.setUser (Some userData) s in
      let request2 := EvRequest (memberOfUrl env userData) true in
      match fetchMemberOf env (memberOfUrl env userData) with
      | Rejects e => (Throw e, s1, [request1; request2])
      | Resolves false _ => (Ok tt, s1, [request1; request2])
      | Resolves true (Throw e) => (Throw e, s1, [request1; request2])
      | Resolves true (Ok teamsData) =>
          let teamsMap :=
            Dashboard.buildTeamsMap (default [] (teams teamsData)) in
          (Ok tt, Dashboard.setUserTeamsMap teamsMap s1, [request1; request2])
      end
  end.

(** [try { ... } catch (err) { console.error(err) } finally
    { setLoading(false) }] *)
Definition fetchData (env : Env) (userPk : string) (s : Dashboard.State)
  : Dashboard.State * list Event :=
  let '(outcome, s1, events) := fetchDataBody env userPk s in
  let events :=
    match outcome with
    | Ok _ => events
    | Throw e => events ++ [EvConsoleError e]
    end in
  (setLoading false s1, events).

(** The [useEffect]: nothing is done without a [userPk]. *)
Definition loadEffect (env : Env) (userPk : option string)
  (s : Dashboard.State) : Dashboard.State * list Event :=
  match userPk with
  | Some userPk => if truthy userPk then fetchData env userPk s else (s, [])
  | None => (s, [])
  end.

End Page.

(** ** Concrete inputs used by the examples below *)

Module Samples.
Import Modal.

Definition fileOfBytes (name type : string) (data : list byte)
  : Signature.File :=
  newFile {| blob_data := data; blob_type := type |} name type.

(** Declared as JPEG; starts with [ff d8 0f 0f], not with [ff d8 ff]. *)
Definition jpegLookalike : Signature.File :=
  fileOfBytes "holiday.jpg" "image/jpeg" [xff; xd8; x0f; x0f; x00; x01].

(** Declared as PNG, four zero bytes. *)
Definition zeroPng : Signature.File :=
  fileOfBytes "empty.png" "image/png" [x00; x00; x00; x00].

(** Well-formed beginnings of the four formats. *)
Definition png : Signature.File :=
  fileOfBytes "a.png" "image/png" [x89; x50; x4e; x47; x0d; x0a; x1a; x0a].
Definition jpeg : Signature.File :=
  fileOfBytes "a.jpg" "image/jpeg" [xff; xd8; xff; xe0; x00; x10].
Definition gif : Signature.File :=
  fileOfBytes "a.gif" "image/gif" [x47; x49; x46; x38; x39; x61].
Definition webp : Signature.File :=
  fileOfBytes "a.webp" "image/webp" [x52; x49; x46; x46; x24; x00].

(** Two bytes only. *)
Definition truncatedJpeg : Signature.File :=
  fileOfBytes "cut.jpg" "image/jpeg" [xff; xd8].

(** A PNG of 20 MiB and one byte. *)
Definition bigPng : Signature.File :=
  {| Signature.name := "poster.png";
     Signature.type := "image/png";
     Signature.size := 20 * 1024 * 1024 + 1;
     Signature.byteAt :=
       fun i => nth (N.to_nat i) [x89; x50; x4e; x47; x0d; x0a; x1a; x0a] x00 |}.

Definition webpBlob : Blob :=
  {| blob_data := [x52; x49; x46; x46]; blob_type := "image/webp" |}.

Definition target : UploadTarget :=
  {| uploadUrl := "https://bucket.example/upload";
     key := "avatars/42/avatar.webp";
     fields := [("policy", "abc"); ("signature", "def")] |}.

(** An environment in which every step succeeds.  Dates are rendered as
    date-fns does for ISO timestamps in a browser whose zone is UTC. *)
Definition env : Env :=
  {| PEOPLEPORTAL_SERVER_ENDPOINT := "https://portal.example";
     format_yyyy_MM_dd := fun s => Ok (substring 0 10 s);
     fileReadable := fun _ => true;
     readAsDataURL := fun _ => Some "data:image/png;base64,iVBORw0KGgo=";
     imageLoads := fun _ => true;
     getContext2d := true;
     canvasToBlob := fun _ _ => Some webpBlob;
     imageCompression := fun _ _ => Ok webpBlob;
     createObjectURL := fun _ => "blob:https://portal.example/7f3a";
     fetchUploadUrl := fun _ => Resolves true (Ok target);
     fetchPost := fun _ _ => Resolves true (Ok tt);
     fetchPatch := fun _ _ => Resolves true (Ok {| message := None |});
     fetchMajors := Resolves true (Ok []) |}.

Definition withUploadUrl (r : FetchResult UploadTarget) (e : Env) : Env :=
  {| PEOPLEPORTAL_SERVER_ENDPOINT := PEOPLEPORTAL_SERVER_ENDPOINT e;
     format_yyyy_MM_dd := format_yyyy_MM_dd e;
     fileReadable := fileReadable e;
     readAsDataURL := readAsDataURL e;
     imageLoads := imageLoads e;
     getContext2d := getContext2d e;
     canvasToBlob := canvasToBlob e;
     imageCompression := imageCompression e;
     createObjectURL := createObjectURL e;
     fetchUploadUrl := fun _ => r;
     fetchPost := fetchPost e;
     fetchPatch := fetchPatch e;
     fetchMajors := fetchMajors e |}.

Definition withPatch (r : FetchResult ErrorBody) (e : Env) : Env :=
  {| PEOPLEPORTAL_SERVER_ENDPOINT := PEOPLEPORTAL_SERVER_ENDPOINT e;
     format_yyyy_MM_dd := format_yyyy_MM_dd e;
     fileReadable := fileReadable e;
     readAsDataURL := readAsDataURL e;
     imageLoads := imageLoads e;
     getContext2d := getContext2d e;
     canvasToBlob := canvasToBlob e;
     imageCompression := imageCompression e;
     createObjectURL := createObjectURL e;
     fetchUploadUrl := fetchUploadUrl e;
     fetchPost := fetchPost e;
     fetchPatch := fun _ _ => r;
     fetchMajors := fetchMajors e |}.

Definition user : UserInformationDetail.t :=
  {| UserInformationDetail.pk := "42";
     UserInformationDetail.username := "jdoe";
     UserInformationDetail.name := "Jane Doe";
     UserInformationDetail.email := "jdoe@example.org";
     UserInformationDetail.memberSince := "2024-09-01T00:00:00.000Z";
     UserInformationDetail.active := true;
     UserInformationDetail.attributes :=
       {| UserAttributeDefinition.major := "Computer Science";
          UserAttributeDefinition.expectedGrad := "2027-05-15T00:00:00.000Z";
          UserAttributeDefinition.phoneNumber := "+13015550100";
          UserAttributeDefinition.roles := [("t1", "Lead")];
          UserAttributeDefinition.alumniAccount := false;
          UserAttributeDefinition.avatar := Some "avatars/42/old.webp" |};
     UserInformationDetail.is_superuser := false;
     UserInformationDetail.avatar := "https://cdn.example/avatars/42/old.webp";
     UserInformationDetail.groups := ["members"];
     UserInformationDetail.last_login := "2026-10-30T12:00:00.000Z";
     UserInformationDetail.type := "internal";
     UserInformationDetail.groupsInfo := [] |}.

Definition page : Dashboard.State :=
  {| Dashboard.user := Some user;
     Dashboard.userTeamsMap := ∅;
     Dashboard.loading := false;
     Dashboard.isEditModalOpen := true |}.

(** The modal as it opens for [user]. *)
Definition opened : State :=
  match initialState env user with
  | Ok s => s
  | Throw _ =>
      {| phoneNumber := ""; expectedGrad := ""; selectedMajor := None;
         majors := []; majorListOpen := false; isSaving := false;
         preview := None; avatarKey := None; isUploading := false;
         fileUploadRef := None; cropImage := None;
         crop := {| point_x := 0; point_y := 0 |}; zoom := 1;
         croppedAreaPixels := None; isCroppingOpen := false |}
  end.

(** The modal after a picture was chosen and the crop area settled. *)
Definition cropping : State :=
  setCroppedAreaPixels
    (Some {| area_x := 10; area_y := 20; width := 300; height := 300 |})
    (setIsCroppingOpen true
       (setCropImage (Some "data:image/png;base64,iVBORw0KGgo=") opened)).

(** The modal after the phone number alone was edited. *)
Definition phoneEdited : State := setPhoneNumber "+13015550199" opened.

Definition team2 : TeamInformationBrief.t :=
  {| TeamInformationBrief.name := "team-two";
     TeamInformationBrief.pk := "t2";
     TeamInformationBrief.parent := None;
     TeamInformationBrief.teamType := PROJECT;
     TeamInformationBrief.seasonType := inl FALL;
     TeamInformationBrief.seasonYear := 2026;
     TeamInformationBrief.description := "";
     TeamInformationBrief.friendlyName := "Team Two";
     TeamInformationBrief.peoplePortalCreation := true |}.

End Samples.

(** ** More concrete inputs *)

Module MoreSamples.
Import Modal.

(** A document, not an image. *)
Definition pdf : Signature.File :=
  Samples.fileOfBytes "cv.pdf" "application/pdf" [x25; x50; x44; x46; x2d].

(** The same first bytes as [Samples.png] under another name and type, and
    with more content behind them. *)
Definition pngRenamed : Signature.File :=
  Samples.fileOfBytes "b.gif" "image/gif"
    [x89; x50; x4e; x47; x00; x00; x00; x00; x00; x00].

Definition team1 : TeamInformationBrief.t :=
  {| TeamInformationBrief.name := "team-one";
     TeamInformationBrief.pk := "t1";
     TeamInformationBrief.parent := None;
     TeamInformationBrief.teamType := BOOTCAMP;
     TeamInformationBrief.seasonType := inl SPRING;
     TeamInformationBrief.seasonYear := 2026;
     TeamInformationBrief.description := "First steps";
     TeamInformationBrief.friendlyName := "Team One";
     TeamInformationBrief.peoplePortalCreation := true |}.

Definition pageEnv : Page.Env :=
  {| Page.SERVER_ENDPOINT := "https://portal.example";
     Page.fetchUser := fun _ => Resolves true (Ok Samples.user);
     Page.fetchMemberOf :=
       fun _ => Resolves true
                  (Ok {| Page.teams := Some [team1; Samples.team2] |}) |}.

(** The user cannot be fetched. *)
Definition pageEnvDown : Page.Env :=
  {| Page.SERVER_ENDPOINT := "https://portal.example";
     Page.fetchUser := fun _ => Resolves false (Throw None);
     Page.fetchMemberOf := fun _ => Rejects None |}.

(** No 2d drawing context can be obtained. *)
Definition envNoContext : Env :=
  {| PEOPLEPORTAL_SERVER_ENDPOINT := PEOPLEPORTAL_SERVER_ENDPOINT Samples.env;
     format_yyyy_MM_dd := format_yyyy_MM_dd Samples.env;
     fileReadable := fileReadable Samples.env;
     readAsDataURL := readAsDataURL Samples.env;
     imageLoads := imageLoads Samples.env;
     getContext2d := false;
     canvasToBlob := canvasToBlob Samples.env;
     imageCompression := imageCompression Samples.env;
     createObjectURL := createObjectURL Samples.env;
     fetchUploadUrl := fetchUploadUrl Samples.env;
     fetchPost := fetchPost Samples.env;
     fetchPatch := fetchPatch Samples.env;
     fetchMajors := fetchMajors Samples.env |}.

(** The compression library gives up. *)
Definition envCompressionFails : Env :=
  {| PEOPLEPORTAL_SERVER_ENDPOINT := PEOPLEPORTAL_SERVER_ENDPOINT Samples.env;
     format_yyyy_MM_dd := format_yyyy_MM_dd Samples.env;
     fileReadable := fileReadable Samples.env;
     readAsDataURL := readAsDataURL Samples.env;
     imageLoads := imageLoads Samples.env;
     getContext2d := getContext2d Samples.env;
     canvasToBlob := canvasToBlob Samples.env;
     imageCompression := fun _ _ => Throw (Some "Compression failed");
     createObjectURL := createObjectURL Samples.env;
     fetchUploadUrl := fetchUploadUrl Samples.env;
     fetchPost := fetchPost Samples.env;
     fetchPatch := fetchPatch Samples.env;
     fetchMajors := fetchMajors Samples.env |}.

(** The storage answers the POST with an error status. *)
Definition envStorageRefuses : Env :=
  {| PEOPLEPORTAL_SERVER_ENDPOINT := PEOPLEPORTAL_SERVER_ENDPOINT Samples.env;
     format_yyyy_MM_dd := format_yyyy_MM_dd Samples.env;
     fileReadable := fileReadable Samples.env;
     readAsDataURL := readAsDataURL Samples.env;
     imageLoads := imageLoads Samples.env;
     getContext2d := getContext2d Samples.env;
     canvasToBlob := canvasToBlob Samples.env;
     imageCompression := imageCompression Samples.env;
     createObjectURL := createObjectURL Samples.env;
     fetchUploadUrl := fetchUploadUrl Samples.env;
     fetchPost := fun _ _ => Resolves false (Throw None);
     fetchPatch := fetchPatch Samples.env;
     fetchMajors := fetchMajors Samples.env |}.

Definition biology : UMDApiMajorListResponse.t :=
  {| UMDApiMajorListResponse.college := "CMNS";
     UMDApiMajorListResponse.major_id := "BIOL";
     UMDApiMajorListResponse.name := "Biology";
     UMDApiMajorListResponse.url := "https://example.org/biol" |}.

Definition computerScience : UMDApiMajorListResponse.t :=
  {| UMDApiMajorListResponse.college := "CMNS";
     UMDApiMajorListResponse.major_id := "CMSC";
     UMDApiMajorListResponse.name := "Computer Science";
     UMDApiMajorListResponse.url := "https://example.org/cmsc" |}.

(** The directory of majors answers with two majors. *)
Definition envMajors : Env :=
  {| PEOPLEPORTAL_SERVER_ENDPOINT := PEOPLEPORTAL_SERVER_ENDPOINT Samples.env;
     format_yyyy_MM_dd := format_yyyy_MM_dd Samples.env;
     fileReadable := fileReadable Samples.env;
     readAsDataURL := readAsDataURL Samples.env;
     imageLoads := imageLoads Samples.env;
     getContext2d := getContext2d Samples.env;
     canvasToBlob := canvasToBlob Samples.env;
     imageCompression := imageCompression Samples.env;
     createObjectURL := createObjectURL Samples.env;
     fetchUploadUrl := fetchUploadUrl Samples.env;
     fetchPost := fetchPost Samples.env;
     fetchPatch := fetchPatch Samples.env;
     fetchMajors := Resolves true (Ok [biology; computerScience]) |}.

(** The directory of majors cannot be reached. *)
Definition envMajorsDown : Env :=
  {| PEOPLEPORTAL_SERVER_ENDPOINT := PEOPLEPORTAL_SERVER_ENDPOINT Samples.env;
     format_yyyy_MM_dd := format_yyyy_MM_dd Samples.env;
     fileReadable := fileReadable Samples.env;
     readAsDataURL := readAsDataURL Samples.env;
     imageLoads := imageLoads Samples.env;
     getContext2d := getContext2d Samples.env;
     canvasToBlob := canvasToBlob Samples.env;
     imageCompression := imageCompression Samples.env;
     createObjectURL := createObjectURL Samples.env;
     fetchUploadUrl := fetchUploadUrl Samples.env;
     fetchPost := fetchPost Samples.env;
     fetchPatch := fetchPatch Samples.env;
     fetchMajors := Rejects (Some "Failed to fetch") |}.

End MoreSamples.

(** * Properties *)

(** ** validateFullName *)

Section FullName.
Import Validation.

(** A run of non-whitespace characters is one token, or none if empty. *)
Lemma ws_tokens_word (w : jsstring) :
  Forall nonws w ->
  ws_tokens w = match w with [] => [] | _ => [w] end.
Proof.
  induction 1 as [|a w Ha Hw IH]; [reflexivity|].
  unfold nonws in Ha. cbn [ws_tokens]. rewrite Ha.
  destruct w as [|a' w']; [reflexivity|].
  inversion Hw as [|? ? Ha' _]; subst. unfold nonws in Ha'. rewrite Ha'.
  now rewrite IH.
Qed.

(** A run of non-whitespace characters followed by whitespace is cut off
    as a token of its own. *)
Lemma ws_tokens_word_sep (w : jsstring) (c : code_unit) (r : jsstring) :
  Forall nonws w -> isWhiteSpace c = true ->
  ws_tokens (w ++ c :: r)
  = match w with [] => ws_tokens r | _ => w :: ws_tokens r end.
Proof.
  intros Hw Hc. induction Hw as [|a w Ha Hw IH].
  - cbn [app ws_tokens]. now rewrite Hc.
  - change ((a :: w) ++ c :: r) with (a :: (w ++ c :: r)).
    unfold nonws in Ha. cbn [ws_tokens]. rewrite Ha.
    destruct w as [|a' w'].
    + cbn [app]. rewrite Hc. cbn [app] in IH. now rewrite IH.
    + change ((a' :: w') ++ c :: r) with (a' :: (w' ++ c :: r)) in *.
      inversion Hw as [|? ? Ha' _]; subst. unfold nonws in Ha'.
      rewrite Ha'. now rewrite IH.
Qed.

(** The scanner of [split], once the empty pieces are filtered out, yields
    the tokens of what it has read of the current piece and what is left. *)
Lemma split_go_tokens (s : jsstring) :
  forall (inSep : bool) (cur : jsstring),
    (inSep = true -> cur = []) -> Forall nonws cur ->
    List.filter (fun part => (0 <? length part)%nat) (split_go inSep cur s)
    = ws_tokens (rev cur ++ s).
Proof.
  induction s as [|c r IH]; intros inSep cur Hsep Hcur.
  - cbn [split_go List.filter]. rewrite app_nil_r.
    assert (Hrev : Forall nonws (rev cur)) by (now apply Forall_rev).
    rewrite (ws_tokens_word _ Hrev).
    destruct (rev cur); reflexivity.
  - cbn [split_go]. destruct (isWhiteSpace c) eqn:Hc.
    + destruct inSep.
      * rewrite (Hsep eq_refl) in *. rewrite (IH true []); auto.
        cbn [rev app ws_tokens]. now rewrite Hc.
      * cbn [List.filter]. rewrite (IH true []); auto.
        assert (Hrev : Forall nonws (rev cur)) by (now apply Forall_rev).
        rewrite (ws_tokens_word_sep _ _ r Hrev Hc).
        destruct (rev cur); reflexivity.
    + rewrite (IH false (c :: cur)).
      * cbn [rev]. now rewrite <- app_assoc.
      * discriminate.
      * now constructor.
Qed.

Lemma split_ws_tokens (s : jsstring) :
  List.filter (fun part => (0 <? length part)%nat) (split_ws s) = ws_tokens s.
Proof.
  unfold split_ws. now rewrite (split_go_tokens s false []).
Qed.

(** C7: [validateFullName] accepts exactly the inputs whose trimmed form has
    at least two whitespace-delimited non-empty tokens; ["Jane"] is
    rejected, ["  Jane   Doe  "] is accepted, and the empty string is
    rejected with the message "Full name is required". *)
Theorem validateFullName_two_tokens :
  (forall fullName : jsstring,
      isValid (validateFullName fullName) = true
      <-> (2 <= length (ws_tokens (trim fullName)))%nat)
  /\ isValid (validateFullName (js "Jane")) = false
  /\ isValid (validateFullName (js "  Jane   Doe  ")) = true
  /\ validateFullName (js "")
     = {| isValid := false; error := Some "Full name is required" |}.
Proof.
  split; [|repeat split; reflexivity].
  intros [|c r].
  - cbn. split; [discriminate | lia].
  - unfold validateFullName. rewrite split_ws_tokens.
    match goal with
    | |- context [if ?b then _ else _] => destruct b eqn:Hlt
    end; cbn [isValid].
    + apply Nat.ltb_lt in Hlt. split; [discriminate | lia].
    + apply Nat.ltb_ge in Hlt. split; [intros _; exact Hlt | reflexivity].
Qed.

End FullName.
(** ** validateFileSignature and onFileChange *)

Section SignatureFacts.
Import Signature.

Lemma string_length_append (a b : string) :
  String.length (a +:+ b) = String.length a + String.length b.
Proof.
  induction a as [|c a IH]; [reflexivity|].
  change (String c a +:+ b) with (String c (a +:+ b)).
  cbn [String.length]. now rewrite IH.
Qed.

Lemma prefix_length (p s : string) :
  String.prefix p s = true -> String.length p <= String.length s.
Proof.
  revert s. induction p as [|a p IH]; intros s H; cbn; [lia|].
  destruct s as [|b s]; cbn in H; [discriminate|].
  destruct (ascii_dec a b); [|discriminate].
  apply IH in H. cbn. lia.
Qed.

(** A byte renders as one or two hexadecimal digits. *)
Lemma toString16_byte_length (b : byte) :
  String.length (toString16 (Byte.to_N b)) <= 2.
Proof. destruct b; vm_compute; lia. Qed.

Lemma hexHeader_length_from (arr : list byte) (acc : string) :
  String.length
    (fold_left (fun header b => header +:+ toString16 (Byte.to_N b)) arr acc)
  <= String.length acc + 2 * length arr.
Proof.
  revert acc. induction arr as [|b arr IH]; intros acc; cbn [fold_left length].
  - lia.
  - specialize (IH (acc +:+ toString16 (Byte.to_N b))).
    rewrite string_length_append in IH.
    pose proof (toString16_byte_length b). lia.
Qed.

Lemma hexHeader_length (arr : list byte) :
  String.length (hexHeader arr) <= 2 * length arr.
Proof. apply (hexHeader_length_from arr ""). Qed.

Lemma slice_length (file : File) (start end_ : N) :
  length (slice file start end_)
  = N.to_nat (N.min end_ (size file) - N.min start (size file)).
Proof. unfold slice. now rewrite length_map, length_seq. Qed.

(** The four formats pass, and four zero bytes do not. *)
Example wellFormed_signatures :
  validateFileSignature true Samples.png = true
  /\ validateFileSignature true Samples.jpeg = true
  /\ validateFileSignature true Samples.gif = true
  /\ validateFileSignature true Samples.webp = true
  /\ validateFileSignature true Samples.zeroPng = false.
Proof. repeat split; vm_compute; reflexivity. Qed.

(** A failed read resolves to [false]. *)
Lemma validateFileSignature_unreadable (file : File) :
  validateFileSignature false file = false.
Proof. reflexivity. Qed.

(** No false negative: bytes that start with a magic number are accepted. *)
Lemma onloadend_magic (buf : list byte) :
  length buf <= 4 -> matchesMagic buf = true -> onloadend (Some buf) = true.
Proof.
  intros Hlen Hmagic.
  destruct buf as [|b1 [|b2 [|b3 [|b4 [|b5 buf]]]]];
    try (cbn in Hlen; lia); try discriminate Hmagic.
  - destruct b1; discriminate Hmagic.
  - destruct b1; try discriminate Hmagic;
      destruct b2; discriminate Hmagic.
  - destruct b1; try discriminate Hmagic;
      destruct b2; try discriminate Hmagic;
      destruct b3; try discriminate Hmagic; vm_compute; reflexivity.
  - destruct b1; try discriminate Hmagic;
      destruct b2; try discriminate Hmagic;
      destruct b3; try discriminate Hmagic;
      destruct b4; try discriminate Hmagic; vm_compute; reflexivity.
Qed.

(** C10: a file of fewer than three bytes never passes the signature
    check: its header has at most four hexadecimal digits, fewer than any
    of the recognised prefixes. *)
Theorem validateFileSignature_short_file (readable : bool) (file : File) :
  (size file < 3)%N ->
  String.length (hexHeader (subarray0 4 (slice file 0 4))) <= 4
  /\ validateFileSignature readable file = false.
Proof.
  intros Hsize.
  assert (Hlen : String.length (hexHeader (subarray0 4 (slice file 0 4))) <= 4).
  { etransitivity; [apply hexHeader_length|].
    unfold subarray0. rewrite length_take, slice_length. lia. }
  split; [exact Hlen|].
  unfold validateFileSignature, readAsArrayBuffer.
  destruct readable; [|reflexivity].
  cbn [onloadend]. unfold startsWith.
  repeat match goal with
  | |- context [String.prefix ?p ?h] =>
      destruct (String.prefix p h) eqn:?H;
      [ match goal with Hp : String.prefix _ _ = true |- _ =>
          apply prefix_length in Hp; cbn [String.length] in Hp; lia end | ]
  end.
  reflexivity.
Qed.

Lemma validateFileSignature_short_file_witness :
  (Signature.size Samples.truncatedJpeg < 3)%N
  /\ String.length
       (hexHeader (subarray0 4 (slice Samples.truncatedJpeg 0 4))) <= 4
  /\ validateFileSignature true Samples.truncatedJpeg = false.
Proof.
  split; [vm_compute; reflexivity|].
  apply (validateFileSignature_short_file true Samples.truncatedJpeg).
  vm_compute; reflexivity.
Defined.

End SignatureFacts.

(** ** onFileChange *)

Section FileChange.
Import Modal.

(** C1: a file declared as JPEG whose first bytes are [ff d8 0f 0f] does not
    start with any magic number, yet its header renders as "ffd8ff" (bytes
    below 16 give a single digit), the signature check accepts it and the
    cropper opens. *)
Theorem jpegLookalike_accepted :
  existsb (String.eqb (Signature.type Samples.jpegLookalike)) allowedTypes = true
  /\ Signature.slice Samples.jpegLookalike 0 4 = [xff; xd8; x0f; x0f]
  /\ Signature.matchesMagic (Signature.slice Samples.jpegLookalike 0 4) = false
  /\ Signature.hexHeader (Signature.slice Samples.jpegLookalike 0 4) = "ffd8ff"
  /\ Signature.validateFileSignature true Samples.jpegLookalike = true
  /\ isCroppingOpen
       (modal (snd (run (onFileChange Samples.env (Some Samples.jpegLookalike))
                        Samples.page Samples.opened))) = true.
Proof. repeat split; vm_compute; reflexivity. Qed.

(** C9, as stated, fails: for a PNG of 20 MiB + 1 byte the first four bytes
    are read for the signature check before the size is looked at. *)
Lemma size_gate_runs_after_signature_check :
  (20 * 1024 * 1024 < Signature.size Samples.bigPng)%N
  /\ trace (snd (run (onFileChange Samples.env (Some Samples.bigPng))
                     Samples.page Samples.opened))
     = [ EvReadAsArrayBuffer [x89; x50; x4e; x47];
         EvToast ToastError "File is too large!"
           (Some "Maximum file size is 20MB") ].
Proof. split; vm_compute; reflexivity. Qed.

(** C9, amended: a file of more than 20 MiB is always rejected, whatever it
    contains: the handler returns with the state of the modal and of the
    page untouched (the cropper stays closed) after one error toast.  The
    size is checked last, after the declared type and the signature. *)
Theorem onFileChange_oversized_rejected
  (env : Env) (file : Signature.File) (d : Dashboard.State) (s : State) :
  (20 * 1024 * 1024 < Signature.size file)%N ->
  let '(r, w) := run (onFileChange env (Some file)) d s in
  r = Ok tt /\ dash w = d /\ modal w = s
  /\ (trace w
      = [ EvToast ToastError "Invalid file type"
            (Some "Please upload an image (JPEG, PNG, WEBP, GIF)") ]
      \/ trace w
         = [ EvReadAsArrayBuffer (Signature.slice file 0 4);
             EvToast ToastError "Invalid file content"
               (Some "The file content does not match its extension.") ]
      \/ trace w
         = [ EvReadAsArrayBuffer (Signature.slice file 0 4);
             EvToast ToastError "File is too large!"
               (Some "Maximum file size is 20MB") ]).
Proof.
  intros Hsize. apply N.ltb_lt in Hsize.
  unfold run, onFileChange.
  destruct (existsb (String.eqb (Signature.type file)) allowedTypes);
    cbn [negb].
  - unfold awaitValidateFileSignature, mbind, M_bind, bind, emit, mret, M_ret,
      ret.
    cbn [trace dash modal app].
    destruct (Signature.validateFileSignature (fileReadable env file) file);
      cbn [negb].
    + rewrite Hsize. cbn. auto 10.
    + cbn. auto 10.
  - cbn. auto 10.
Qed.

Lemma onFileChange_oversized_rejected_witness :
  (20 * 1024 * 1024 < Signature.size Samples.bigPng)%N
  /\ let '(r, w) := run (onFileChange Samples.env (Some Samples.bigPng))
                        Samples.page Samples.opened in
     r = Ok tt /\ dash w = Samples.page /\ modal w = Samples.opened
     /\ (trace w
         = [ EvToast ToastError "Invalid file type"
               (Some "Please upload an image (JPEG, PNG, WEBP, GIF)") ]
         \/ trace w
            = [ EvReadAsArrayBuffer (Signature.slice Samples.bigPng 0 4);
                EvToast ToastError "Invalid file content"
                  (Some "The file content does not match its extension.") ]
         \/ trace w
            = [ EvReadAsArrayBuffer (Signature.slice Samples.bigPng 0 4);
                EvToast ToastError "File is too large!"
                  (Some "Maximum file size is 20MB") ]).
Proof.
  split; [vm_compute; reflexivity|].
  apply (onFileChange_oversized_rejected Samples.env Samples.bigPng
           Samples.page Samples.opened).
  vm_compute; reflexivity.
Defined.

End FileChange.

(** ** roleEntries *)

Section RoleEntries.
Import Dashboard.

Implicit Types (roles : list (string * string))
               (teams : gmap string TeamInformationBrief.t).

(** What the builder emits: the entries of [roles] whose team is found,
    each with the team it was found with. *)
Lemma in_roleEntries roles teams (entry : RoleEntry) :
  In entry (roleEntries roles teams)
  <-> exists info,
        In (teamPk entry, roleTitle entry) roles
        /\ teams !! teamPk entry = Some info
        /\ teamInfo entry = Some info.
Proof.
  unfold roleEntries. rewrite filter_In, in_map_iff. split.
  - intros [[[pk title] [<- Hin]] Hsome]. cbn in *.
    destruct (teams !! pk) as [info|] eqn:Hlook; [|discriminate].
    exists info. auto.
  - intros (info & Hin & Hlook & Hinfo). split.
    + exists (teamPk entry, roleTitle entry). split; [|exact Hin].
      destruct entry as [pk title ti]. cbn in *. congruence.
    + now rewrite Hinfo.
Qed.

(** C6: an entry of [roles] yields a role entry exactly when its team pk
    resolves in the lookup map, and nothing else is emitted; entries whose
    team is unknown are dropped: [{"t1": "Lead"}] against a map that only
    knows ["t2"] gives the empty list, and so does any mapping against the
    empty map. *)
Theorem roleEntries_iff_team_resolves :
  (forall roles teams pk title,
      In (pk, title) roles ->
      ((exists entry, In entry (roleEntries roles teams)
                      /\ teamPk entry = pk /\ roleTitle entry = title)
       <-> is_Some (teams !! pk)))
  /\ (forall roles teams entry,
         In entry (roleEntries roles teams) ->
         In (teamPk entry, roleTitle entry) roles
         /\ teamInfo entry = teams !! teamPk entry
         /\ is_Some (teams !! teamPk entry))
  /\ roleEntries [("t1", "Lead")] (buildTeamsMap [Samples.team2]) = []
  /\ (forall roles, roleEntries roles ∅ = []).
Proof.
  split; [|split; [|split]].
  - intros roles teams pk title Hin. split.
    + intros (entry & Hentry & <- & <-).
      apply in_roleEntries in Hentry as (info & _ & Hlook & _). eauto.
    + intros [info Hlook].
      exists {| teamPk := pk; roleTitle := title; teamInfo := Some info |}.
      split; [|auto]. apply in_roleEntries. exists info. auto.
  - intros roles teams entry Hentry.
    apply in_roleEntries in Hentry as (info & Hin & Hlook & Hinfo).
    rewrite Hlook. eauto.
  - vm_compute. reflexivity.
  - intros roles. induction roles as [|[pk title] roles IH]; [reflexivity|].
    unfold roleEntries in *. cbn [List.map List.filter teamInfo].
    now rewrite lookup_empty.
Qed.

End RoleEntries.

(** ** The handlers of the modal *)

Section Handlers.
Import Modal Outcome.

Lemma uploadUrlRequest_avatar (env : Env) (blob : Blob) :
  uploadUrlRequest env (newFile blob "avatar.webp" "image/webp")
  = avatarUploadUrl env.
Proof. unfold uploadUrlRequest, avatarUploadUrl. f_equal. Qed.

Ltac unfold_handlers :=
  unfold run, processAndUploadAvatar, uploadBody, handleSave, majorsEffect,
    onSuccess,
    onClose, try_catch_finally, fetch, toast_info, toast_success, toast_error,
    throw, await, getState, modify, modifyDash, emit,
    mbind, M_bind, bind, mret, M_ret, ret.

(** *** processAndUploadAvatar *)

(** C2, as stated, fails: when the upload-URL request is answered with an
    error status, the preview has already been switched to the object URL
    of the compressed picture and it is not switched back. *)
Lemma preview_swapped_when_upload_url_fails :
  let env := Samples.withUploadUrl (Resolves false (Throw None)) Samples.env in
  let w := snd (run (processAndUploadAvatar env) Samples.page Samples.cropping) in
  preview Samples.cropping = Some "https://cdn.example/avatars/42/old.webp"
  /\ preview (modal w) = Some "blob:https://portal.example/7f3a"
  /\ trace w
     = [ EvToast ToastInfo "Processing image..." None;
         EvFetch "GET" (avatarUploadUrl env);
         EvToast ToastError "Upload failed" (Some "Failed to get upload URL") ].
Proof. repeat split; vm_compute; reflexivity. Qed.

(** C2, amended: in a run that gets as far as the upload-URL request and in
    which that request or the POST to the storage fails, [avatarKey] keeps
    its value; the preview shows the object URL of the compressed picture,
    which was set before the first request. *)
Theorem upload_failure_keeps_avatarKey
  (env : Env) (d : Dashboard.State) (s : State)
  (img : string) (area : Area) (cropped compressed : Blob) :
  cropImage s = Some img -> truthy img = true ->
  croppedAreaPixels s = Some area ->
  getCroppedImg env img area = Ok cropped ->
  imageCompression env (newFile cropped "avatar.webp" "image/webp")
    compressionOptions = Ok compressed ->
  let uploadFile := newFile compressed "avatar.webp" "image/webp" in
  let answer := fetchUploadUrl env (uploadUrlRequest env uploadFile) in
  (uploadUrlFailed answer = true
   \/ exists target,
        answer = Resolves true (Ok target)
        /\ requestFailed
             (fetchPost env (uploadUrl target)
                (uploadFormData (fields target) uploadFile)) = true) ->
  let w := snd (run (processAndUploadAvatar env) d s) in
  avatarKey (modal w) = avatarKey s
  /\ preview (modal w) = Some (createObjectURL env uploadFile).
Proof.
  intros Himg Htruthy Harea Hcrop Hcompress uploadFile answer Hfail.
  subst answer uploadFile.
  unfold_handlers. cbn [modal dash trace].
  rewrite Himg, Harea, Htruthy. cbn [negb].
  rewrite Hcrop, Hcompress.
  destruct (fetchUploadUrl env _) as [e|[|] [t|e]];
    try (split; reflexivity).
  destruct Hfail as [Hfail|(target & Heq & Hfail)];
    [discriminate|].
  injection Heq as <-.
  destruct (fetchPost env _ _) as [e|[|] body];
    try discriminate; split; reflexivity.
Qed.

Lemma upload_failure_keeps_avatarKey_witness :
  let env := Samples.withUploadUrl (Resolves false (Throw None)) Samples.env in
  let w := snd (run (processAndUploadAvatar env) Samples.page Samples.cropping) in
  avatarKey (modal w) = avatarKey Samples.cropping
  /\ preview (modal w)
     = Some (createObjectURL env
               (newFile Samples.webpBlob "avatar.webp" "image/webp")).
Proof.
  intros env w.
  apply (upload_failure_keeps_avatarKey env Samples.page Samples.cropping
           "data:image/png;base64,iVBORw0KGgo="
           {| area_x := 10; area_y := 20; width := 300; height := 300 |}
           Samples.webpBlob Samples.webpBlob);
    try reflexivity.
  left. reflexivity.
Defined.

(** C3: when the request for an upload URL fails, no POST is issued and
    [avatarKey] keeps its value; and whenever a run changes [avatarKey],
    both the upload-URL request and the POST to the storage have returned
    success, in that order, and the new value is the key that came with
    the upload URL. *)
Theorem avatarKey_set_only_after_both_requests
  (env : Env) (d : Dashboard.State) (s : State) :
  let w := snd (run (processAndUploadAvatar env) d s) in
  (uploadUrlFailed (fetchUploadUrl env (avatarUploadUrl env)) = true ->
   (forall url, ~ In (EvFetch "POST" url) (trace w))
   /\ avatarKey (modal w) = avatarKey s)
  /\ (avatarKey (modal w) = avatarKey s
      \/ exists target formData body,
           fetchUploadUrl env (avatarUploadUrl env) = Resolves true (Ok target)
           /\ fetchPost env (uploadUrl target) formData = Resolves true body
           /\ avatarKey (modal w) = Some (key target)
           /\ trace w
              = [ EvToast ToastInfo "Processing image..." None;
                  EvFetch "GET" (avatarUploadUrl env);
                  EvFetch "POST" (uploadUrl target);
                  EvToast ToastSuccess "Profile picture updated!" None ]).
Proof.
  unfold_handlers. cbn [modal dash trace].
  destruct (cropImage s) as [img|]; [|cbn; intuition].
  destruct (croppedAreaPixels s) as [area|]; [|cbn; intuition].
  destruct (truthy img); cbn [negb]; [|cbn; intuition].
  destruct (getCroppedImg env img area) as [cropped|e];
    [|cbn; intuition discriminate].
  destruct (imageCompression env _ _) as [compressed|e];
    [|cbn; intuition discriminate].
  rewrite uploadUrlRequest_avatar.
  destruct (fetchUploadUrl env (avatarUploadUrl env)) as [e|[|] [t|e]];
    try (cbn; intuition discriminate).
  destruct (fetchPost env _ _) as [e|[|] body] eqn:Hpost;
    try (cbn; intuition discriminate).
  split; [discriminate|].
  right.
  exists t, (uploadFormData (fields t)
               (newFile compressed "avatar.webp" "image/webp")), body.
  repeat split. exact Hpost.
Qed.

Lemma avatarKey_set_only_after_both_requests_witness :
  let env := Samples.withUploadUrl (Resolves false (Throw None)) Samples.env in
  let w := snd (run (processAndUploadAvatar env) Samples.page Samples.cropping) in
  (forall url, ~ In (EvFetch "POST" url) (trace w))
  /\ avatarKey (modal w) = avatarKey Samples.cropping.
Proof.
  intros env w.
  apply (avatarKey_set_only_after_both_requests env Samples.page
           Samples.cropping).
  reflexivity.
Defined.

(** *** handleSave *)

(** A successful save hands the merged record to [onSuccess], which makes
    it the user of the page, and closes the dialog. *)
Lemma handleSave_success (env : Env) (user : UserInformationDetail.t)
  (d : Dashboard.State) (s : State) (json : result ErrorBody) :
  fetchPatch env (patchUrl env user) (patchBody s) = Resolves true json ->
  run (handleSave env user) d s
  = (Ok tt,
     {| dash :=
          Dashboard.setIsEditModalOpen false
            (Dashboard.setUser (Some (mergedUser user s)) d);
        modal := setIsSaving false (setIsSaving true s);
        trace :=
          [ EvFetch "PATCH" (patchUrl env user);
            EvToast ToastSuccess "Profile updated successfully!" None;
            EvOnSuccess (mergedUser user s);
            EvOnClose ] |}).
Proof. intros Hpatch. unfold_handlers. cbn [modal dash trace]. now rewrite Hpatch. Qed.

(** The effect that loads the majors leaves the staged values alone, apart
    from preselecting a major with the name the user already has. *)
Lemma majorsEffect_staged (env : Env) (user : UserInformationDetail.t)
  (d : Dashboard.State) (s : State) :
  let s' := modal (snd (run (majorsEffect env user) d s)) in
  phoneNumber s' = phoneNumber s /\ expectedGrad s' = expectedGrad s
  /\ preview s' = preview s /\ avatarKey s' = avatarKey s
  /\ (selectedMajor s' = selectedMajor s
      \/ exists m, selectedMajor s' = Some m
                   /\ UMDApiMajorListResponse.name m
                      = UserAttributeDefinition.major
                          (UserInformationDetail.attributes user)).
Proof.
  unfold_handlers. cbn [modal dash trace].
  destruct (fetchMajors env) as [e|ok [data|e]]; cbn; auto 10.
  destruct (find _ data) as [m|] eqn:Hfind; cbn; auto 10.
  apply find_some in Hfind as [_ Hname]. apply String.eqb_eq in Hname.
  repeat split; eauto.
Qed.

(** C5: after a successful save the record given to [onSuccess] (and kept
    as the user of the page) agrees with the prior record on every field
    except the avatar preview and, within the attributes, [major],
    [phoneNumber], [expectedGrad] and [avatar]; [pk] and [username] are
    among the fields that are copied. *)
Theorem handleSave_success_frame (env : Env) (user : UserInformationDetail.t)
  (d : Dashboard.State) (s : State) (json : result ErrorBody) :
  fetchPatch env (patchUrl env user) (patchBody s) = Resolves true json ->
  let '(r, w) := run (handleSave env user) d s in
  r = Ok tt
  /\ exists merged,
       trace w
       = [ EvFetch "PATCH" (patchUrl env user);
           EvToast ToastSuccess "Profile updated successfully!" None;
           EvOnSuccess merged;
           EvOnClose ]
       /\ Dashboard.user (dash w) = Some merged
       /\ UserInformationDetail.pk merged = UserInformationDetail.pk user
       /\ UserInformationDetail.username merged
          = UserInformationDetail.username user
       /\ UserInformationDetail.name merged = UserInformationDetail.name user
       /\ UserInformationDetail.email merged = UserInformationDetail.email user
       /\ UserInformationDetail.memberSince merged
          = UserInformationDetail.memberSince user
       /\ UserInformationDetail.active merged = UserInformationDetail.active user
       /\ UserInformationDetail.is_superuser merged
          = UserInformationDetail.is_superuser user
       /\ UserInformationDetail.groups merged = UserInformationDetail.groups user
       /\ UserInformationDetail.last_login merged
          = UserInformationDetail.last_login user
       /\ UserInformationDetail.type merged = UserInformationDetail.type user
       /\ UserInformationDetail.groupsInfo merged
          = UserInformationDetail.groupsInfo user
       /\ UserAttributeDefinition.roles (UserInformationDetail.attributes merged)
          = UserAttributeDefinition.roles (UserInformationDetail.attributes user)
       /\ UserAttributeDefinition.alumniAccount
            (UserInformationDetail.attributes merged)
          = UserAttributeDefinition.alumniAccount
              (UserInformationDetail.attributes user).
Proof.
  intros Hpatch. rewrite (handleSave_success env user d s json Hpatch).
  split; [reflexivity|]. exists (mergedUser user s).
  repeat split; reflexivity.
Qed.

Lemma handleSave_success_frame_witness :
  let '(r, w) := run (handleSave Samples.env Samples.user) Samples.page
                     Samples.phoneEdited in
  r = Ok tt
  /\ exists merged,
       trace w
       = [ EvFetch "PATCH" (patchUrl Samples.env Samples.user);
           EvToast ToastSuccess "Profile updated successfully!" None;
           EvOnSuccess merged;
           EvOnClose ]
       /\ Dashboard.user (dash w) = Some merged
       /\ UserInformationDetail.pk merged = "42"
       /\ UserInformationDetail.username merged = "jdoe"
       /\ UserInformationDetail.name merged
          = UserInformationDetail.name Samples.user
       /\ UserInformationDetail.email merged
          = UserInformationDetail.email Samples.user
       /\ UserInformationDetail.memberSince merged
          = UserInformationDetail.memberSince Samples.user
       /\ UserInformationDetail.active merged
          = UserInformationDetail.active Samples.user
       /\ UserInformationDetail.is_superuser merged
          = UserInformationDetail.is_superuser Samples.user
       /\ UserInformationDetail.groups merged
          = UserInformationDetail.groups Samples.user
       /\ UserInformationDetail.last_login merged
          = UserInformationDetail.last_login Samples.user
       /\ UserInformationDetail.type merged
          = UserInformationDetail.type Samples.user
       /\ UserInformationDetail.groupsInfo merged
          = UserInformationDetail.groupsInfo Samples.user
       /\ UserAttributeDefinition.roles (UserInformationDetail.attributes merged)
          = UserAttributeDefinition.roles
              (UserInformationDetail.attributes Samples.user)
       /\ UserAttributeDefinition.alumniAccount
            (UserInformationDetail.attributes merged)
          = UserAttributeDefinition.alumniAccount
              (UserInformationDetail.attributes Samples.user).
Proof.
  apply (handleSave_success_frame Samples.env Samples.user Samples.page
           Samples.phoneEdited (Ok {| message := None |})).
  reflexivity.
Defined.

(** C4, as stated, fails: the user's graduation date is stored as an ISO
    timestamp; the form holds its rendering as a day, and a save in which
    only the phone number was edited writes that rendering into the merged
    record. *)
Lemma phone_only_save_rewrites_expectedGrad :
  let w := snd (run (handleSave Samples.env Samples.user) Samples.page
                    Samples.phoneEdited) in
  initialState Samples.env Samples.user = Ok Samples.opened
  /\ Samples.phoneEdited = setPhoneNumber "+13015550199" Samples.opened
  /\ UserAttributeDefinition.expectedGrad
       (UserInformationDetail.attributes Samples.user)
     = "2027-05-15T00:00:00.000Z"
  /\ (fun merged =>
        UserAttributeDefinition.expectedGrad
          (UserInformationDetail.attributes merged))
     <$> Dashboard.user (dash w)
     = Some "2027-05-15".
Proof. repeat split; vm_compute; reflexivity. Qed.

(** What [initialState] stages from the prior record. *)
Lemma initialState_staged (env : Env) (user : UserInformationDetail.t)
  (s0 : State) :
  initialState env user = Ok s0 ->
  let attributes := UserInformationDetail.attributes user in
  selectedMajor s0 = None
  /\ preview s0 = Some (UserInformationDetail.avatar user)
  /\ avatarKey s0 = UserAttributeDefinition.avatar attributes
  /\ (if truthy (UserAttributeDefinition.expectedGrad attributes)
      then format_yyyy_MM_dd env (UserAttributeDefinition.expectedGrad attributes)
           = Ok (expectedGrad s0)
      else expectedGrad s0 = "").
Proof.
  unfold initialState.
  destruct (truthy (UserAttributeDefinition.expectedGrad _)).
  - destruct (format_yyyy_MM_dd env _) as [day|e]; [|discriminate].
    intros [= <-]. cbn. auto.
  - intros [= <-]. cbn. auto.
Qed.

Lemma or_opt_str_same (a : string) : or_opt_str (Some a) a = a.
Proof. unfold or_opt_str. now destruct (truthy a). Qed.

Lemma or_opt_same (a : option string) : or_opt a a = a.
Proof. unfold or_opt. now destruct (truthy_opt a). Qed.

(** C4, amended: after a successful save in which only the phone number was
    edited (the other staged values are those of the opening of the modal,
    with or without the preselection of the major by the majors effect),
    the merged record has the [major], the [avatar] key and the avatar
    picture of the prior record and the edited phone number; its
    [expectedGrad] is the staged rendering of the prior date as a day
    (the prior value itself when that rendering is empty). *)
Theorem phone_only_save_frame (env : Env) (user : UserInformationDetail.t)
  (d : Dashboard.State) (s0 s1 : State) (phone : string)
  (json : result ErrorBody) :
  initialState env user = Ok s0 ->
  s1 = s0 \/ s1 = modal (snd (run (majorsEffect env user) d s0)) ->
  fetchPatch env (patchUrl env user) (patchBody (setPhoneNumber phone s1))
  = Resolves true json ->
  let prior := UserInformationDetail.attributes user in
  let w := snd (run (handleSave env user) d (setPhoneNumber phone s1)) in
  exists merged,
    Dashboard.user (dash w) = Some merged
    /\ In (EvOnSuccess merged) (trace w)
    /\ UserAttributeDefinition.major (UserInformationDetail.attributes merged)
       = UserAttributeDefinition.major prior
    /\ UserAttributeDefinition.avatar (UserInformationDetail.attributes merged)
       = UserAttributeDefinition.avatar prior
    /\ UserInformationDetail.avatar merged = UserInformationDetail.avatar user
    /\ UserAttributeDefinition.phoneNumber
         (UserInformationDetail.attributes merged) = phone
    /\ UserAttributeDefinition.expectedGrad
         (UserInformationDetail.attributes merged)
       = or_str (expectedGrad s0) (UserAttributeDefinition.expectedGrad prior)
    /\ (if truthy (UserAttributeDefinition.expectedGrad prior)
        then format_yyyy_MM_dd env (UserAttributeDefinition.expectedGrad prior)
             = Ok (expectedGrad s0)
        else expectedGrad s0 = "").
Proof.
  intros Hinit Hs1 Hpatch prior w. subst w.
  rewrite (handleSave_success env user d _ json Hpatch).
  destruct (initialState_staged env user s0 Hinit)
    as (Hmajor0 & Hpreview0 & Hkey0 & Hgrad0).
  assert (Hstaged :
            expectedGrad s1 = expectedGrad s0 /\ preview s1 = preview s0
            /\ avatarKey s1 = avatarKey s0
            /\ (selectedMajor s1 = None
                \/ exists m, selectedMajor s1 = Some m
                             /\ UMDApiMajorListResponse.name m
                                = UserAttributeDefinition.major prior)).
  { destruct Hs1 as [->| ->]; [auto|].
    destruct (majorsEffect_staged env user d s0) as (_ & Hg & Hp & Hk & Hm).
    rewrite Hmajor0 in Hm. auto. }
  destruct Hstaged as (Hg & Hp & Hk & Hm).
  exists (mergedUser user (setPhoneNumber phone s1)).
  cbn [snd dash trace Dashboard.setIsEditModalOpen Dashboard.setUser
       Dashboard.user].
  split; [reflexivity|]. split; [cbn; auto|].
  unfold mergedUser.
  cbn [UserInformationDetail.attributes UserInformationDetail.avatar
       UserAttributeDefinition.major UserAttributeDefinition.avatar
       UserAttributeDefinition.phoneNumber UserAttributeDefinition.expectedGrad
       setPhoneNumber selectedMajor preview avatarKey phoneNumber expectedGrad].
  rewrite Hg, Hp, Hk, Hpreview0, Hkey0, or_opt_str_same, or_opt_same.
  repeat split; try exact Hgrad0.
  destruct Hm as [-> | (m & -> & Hname)]; [reflexivity|].
  cbn [fmap option_fmap option_map]. rewrite Hname. apply or_opt_str_same.
Qed.

Lemma phone_only_save_frame_witness :
  let prior := UserInformationDetail.attributes Samples.user in
  let w := snd (run (handleSave Samples.env Samples.user) Samples.page
                    (setPhoneNumber "+13015550199" Samples.opened)) in
  exists merged,
    Dashboard.user (dash w) = Some merged
    /\ In (EvOnSuccess merged) (trace w)
    /\ UserAttributeDefinition.major (UserInformationDetail.attributes merged)
       = UserAttributeDefinition.major prior
    /\ UserAttributeDefinition.avatar (UserInformationDetail.attributes merged)
       = UserAttributeDefinition.avatar prior
    /\ UserInformationDetail.avatar merged
       = UserInformationDetail.avatar Samples.user
    /\ UserAttributeDefinition.phoneNumber
         (UserInformationDetail.attributes merged) = "+13015550199"
    /\ UserAttributeDefinition.expectedGrad
         (UserInformationDetail.attributes merged)
       = or_str (expectedGrad Samples.opened)
           (UserAttributeDefinition.expectedGrad prior)
    /\ (if truthy (UserAttributeDefinition.expectedGrad prior)
        then format_yyyy_MM_dd Samples.env
               (UserAttributeDefinition.expectedGrad prior)
             = Ok (expectedGrad Samples.opened)
        else expectedGrad Samples.opened = "").
Proof.
  apply (phone_only_save_frame Samples.env Samples.user Samples.page
           Samples.opened Samples.opened "+13015550199"
           (Ok {| message := None |})).
  - reflexivity.
  - left. reflexivity.
  - reflexivity.
Defined.

(** C8, as stated, fails in its last part: when [fetch] itself rejects,
    the toast shows the message of that error, which is neither a text
    sent by the server nor the generic "Failed to update profile". *)
Lemma handleSave_surfaces_thrown_message :
  let env := Samples.withPatch (Rejects (Some "Failed to fetch")) Samples.env in
  trace (snd (run (handleSave env Samples.user) Samples.page
                  Samples.phoneEdited))
  = [ EvFetch "PATCH" "https://portal.example/api/org/people/42";
      EvToast ToastError "Save failed" (Some "Failed to fetch") ].
Proof. vm_compute. reflexivity. Qed.

(** C8, amended: when the PATCH fails, the handler returns with the page
    state (the local user record, the open dialog) as it was, with the
    staged values as they were and the saving flag cleared; [onSuccess] and
    [onClose] are not called, the only events being the request and one
    error toast.  For an error status the toast describes the failure with
    the [message] of the parsed body when it is non-empty and with "Failed
    to update profile" otherwise; when [fetch] rejects, or the body of the
    error response cannot be parsed, it shows the message of that error. *)
Theorem handleSave_failure_keeps_staged_values
  (env : Env) (user : UserInformationDetail.t)
  (d : Dashboard.State) (s : State) :
  let answer := fetchPatch env (patchUrl env user) (patchBody s) in
  requestFailed answer = true ->
  let '(r, w) := run (handleSave env user) d s in
  r = Ok tt
  /\ dash w = d
  /\ modal w = setIsSaving false s
  /\ phoneNumber (modal w) = phoneNumber s
  /\ expectedGrad (modal w) = expectedGrad s
  /\ selectedMajor (modal w) = selectedMajor s
  /\ preview (modal w) = preview s
  /\ avatarKey (modal w) = avatarKey s
  /\ exists description,
       trace w
       = [ EvFetch "PATCH" (patchUrl env user);
           EvToast ToastError "Save failed" description ]
       /\ description
          = match answer with
            | Resolves _ (Ok err) =>
                Some (or_opt_str (message err) "Failed to update profile")
            | Resolves _ (Throw thrown) => thrown
            | Rejects thrown => thrown
            end.
Proof.
  intros answer Hfail. subst answer.
  unfold_handlers. cbn [modal dash trace].
  destruct (fetchPatch env _ _) as [e|[|] [err|e]];
    try discriminate; cbn; repeat split; eauto.
Qed.

Lemma handleSave_failure_keeps_staged_values_witness :
  let env := Samples.withPatch
               (Resolves false (Ok {| message := Some "Phone number is invalid" |}))
               Samples.env in
  let '(r, w) := run (handleSave env Samples.user) Samples.page
                     Samples.phoneEdited in
  r = Ok tt
  /\ dash w = Samples.page
  /\ modal w = setIsSaving false Samples.phoneEdited
  /\ phoneNumber (modal w) = phoneNumber Samples.phoneEdited
  /\ expectedGrad (modal w) = expectedGrad Samples.phoneEdited
  /\ selectedMajor (modal w) = selectedMajor Samples.phoneEdited
  /\ preview (modal w) = preview Samples.phoneEdited
  /\ avatarKey (modal w) = avatarKey Samples.phoneEdited
  /\ exists description,
       trace w
       = [ EvFetch "PATCH" (patchUrl env Samples.user);
           EvToast ToastError "Save failed" description ]
       /\ description = Some "Phone number is invalid".
Proof.
  intros env.
  apply (handleSave_failure_keeps_staged_values env Samples.user Samples.page
           Samples.phoneEdited).
  reflexivity.
Defined.

End Handlers.

(** * Further properties *)

(** ** validateFullName: whitespace and words *)

Section FullNameWords.
Import Validation.

Local Abbreviation ws := (fun c : N => isWhiteSpace c = true).

Lemma ws_tokens_blank (r : list N) : Forall ws r -> ws_tokens r = [].
Proof.
  induction 1 as [|c r Hc _ IH]; [reflexivity|].
  cbv beta in Hc. cbn [ws_tokens]. now rewrite Hc.
Qed.

Lemma ws_tokens_blank_prefix (l s : list N) :
  Forall ws l -> ws_tokens (l ++ s) = ws_tokens s.
Proof.
  induction 1 as [|c l Hc _ IH]; [reflexivity|].
  cbv beta in Hc. cbn [app ws_tokens]. now rewrite Hc.
Qed.

Lemma ws_tokens_blank_suffix (s r : list N) :
  Forall ws r -> ws_tokens (s ++ r) = ws_tokens s.
Proof.
  intros Hr. induction s as [|c s IH].
  - cbn [app]. now apply ws_tokens_blank.
  - cbn [app ws_tokens]. destruct (isWhiteSpace c); [exact IH|].
    destruct s as [|c' s'].
    + cbn [app]. destruct Hr as [|c' r Hc' Hr]; [reflexivity|].
      pose proof (ws_tokens_blank (c' :: r)) as Hblank.
      cbv beta in Hc'. rewrite Hc'.
      rewrite Hblank; [reflexivity|]. now constructor.
    + cbn [app] in *. now rewrite IH.
Qed.

(** [trimStart] drops a run of whitespace. *)
Lemma trimStart_split (s : list N) :
  exists l, Forall ws l /\ s = l ++ trimStart s.
Proof.
  induction s as [|c s (l & Hl & IH)].
  - exists []. split; [constructor | reflexivity].
  - cbn [trimStart]. destruct (isWhiteSpace c) eqn:Hc.
    + exists (c :: l). split; [now constructor|].
      cbn [app]. now rewrite <- IH.
    + exists []. split; [constructor | reflexivity].
Qed.

Lemma trim_split (s : list N) :
  exists l r, Forall ws l /\ Forall ws r /\ s = l ++ trim s ++ r.
Proof.
  destruct (trimStart_split s) as (l & Hl & Hs).
  destruct (trimStart_split (rev (trimStart s))) as (r & Hr & Hrev).
  exists l, (rev r). split; [exact Hl|]. split; [now apply Forall_rev|].
  unfold trim, trimEnd. rewrite <- rev_app_distr, <- Hrev, rev_involutive.
  exact Hs.
Qed.

Lemma ws_tokens_trim (s : list N) : ws_tokens (trim s) = ws_tokens s.
Proof.
  destruct (trim_split s) as (l & r & Hl & Hr & Hs).
  rewrite Hs at 2.
  now rewrite ws_tokens_blank_prefix, ws_tokens_blank_suffix.
Qed.

(** Validity in terms of the tokens of the input as it was typed. *)
Lemma isValid_tokens (s : list N) :
  isValid (validateFullName s) = (2 <=? length (ws_tokens s))%nat.
Proof.
  destruct s as [|c s]; [reflexivity|].
  unfold validateFullName. rewrite split_ws_tokens, ws_tokens_trim.
  destruct (Nat.ltb_spec (length (ws_tokens (c :: s))) 2) as [H|H];
    cbn [isValid]; symmetry.
  - apply Nat.leb_gt. exact H.
  - apply Nat.leb_le. exact H.
Qed.

(** X1: whitespace around a name does not change whether it is valid. *)
Theorem validateFullName_padding (l s r : list N) :
  Forall (fun c => isWhiteSpace c = true) l ->
  Forall (fun c => isWhiteSpace c = true) r ->
  isValid (validateFullName (l ++ s ++ r)) = isValid (validateFullName s).
Proof.
  intros Hl Hr. rewrite !isValid_tokens.
  now rewrite ws_tokens_blank_prefix, ws_tokens_blank_suffix.
Qed.

Lemma validateFullName_padding_witness :
  isValid (validateFullName (js (String "009" " ") ++ js "Jane Doe" ++ js "  "))
  = isValid (validateFullName (js "Jane Doe")).
Proof.
  apply (validateFullName_padding (js (String "009" " ")) (js "Jane Doe")
           (js "  "));
    repeat constructor.
Defined.

(** X2: an input without any whitespace is a single word and is rejected,
    however long it is. *)
Theorem validateFullName_single_word (s : list N) :
  Forall (fun c => isWhiteSpace c = false) s ->
  isValid (validateFullName s) = false.
Proof.
  intros Hs. rewrite isValid_tokens.
  rewrite (ws_tokens_word s Hs). now destruct s.
Qed.

Lemma validateFullName_single_word_witness :
  isValid (validateFullName (js "Jane-Doe")) = false.
Proof.
  apply (validateFullName_single_word (js "Jane-Doe")).
  repeat constructor.
Defined.

(** X3: two non-empty words separated by a non-empty run of whitespace
    make a valid name. *)
Theorem validateFullName_two_words (first sep last : list N) :
  first <> [] -> sep <> [] -> last <> [] ->
  Forall (fun c => isWhiteSpace c = false) first ->
  Forall (fun c => isWhiteSpace c = true) sep ->
  Forall (fun c => isWhiteSpace c = false) last ->
  validateFullName (first ++ sep ++ last)
  = {| isValid := true; error := None |}.
Proof.
  intros Hfirst Hsep Hlast Hf Hs Hl.
  assert (Htok : ws_tokens (first ++ sep ++ last) = [first; last]).
  { destruct sep as [|c sep]; [congruence|].
    inversion Hs as [|? ? Hc Hs']; subst.
    change ((c :: sep) ++ last) with (c :: (sep ++ last)).
    rewrite (ws_tokens_word_sep first c (sep ++ last) Hf Hc).
    rewrite (ws_tokens_blank_prefix sep last Hs'), (ws_tokens_word last Hl).
    destruct first; [congruence|]. destruct last; [congruence|]. reflexivity. }
  destruct (first ++ sep ++ last) as [|c s] eqn:Hin.
  - destruct first; [congruence | discriminate].
  - unfold validateFullName.
    rewrite split_ws_tokens, ws_tokens_trim, Htok. reflexivity.
Qed.

Lemma validateFullName_two_words_witness :
  validateFullName (js "Ada" ++ js "  " ++ js "Lovelace")
  = {| isValid := true; error := None |}.
Proof.
  apply (validateFullName_two_words (js "Ada") (js "  ") (js "Lovelace"));
    try discriminate; repeat constructor.
Defined.

(** X4: an input made of whitespace only is not taken for a missing name:
    it is turned down with the message that asks for both names, and
    "Full name is required" is the answer to the empty input alone. *)
Theorem validateFullName_messages (s : list N) :
  (error (validateFullName s) = Some "Full name is required" <-> s = [])
  /\ (error (validateFullName s) = None <-> isValid (validateFullName s) = true)
  /\ (s <> [] -> Forall (fun c => isWhiteSpace c = true) s ->
      validateFullName s
      = {| isValid := false;
           error := Some "Please provide both first and last name" |}).
Proof.
  split; [|split].
  - destruct s as [|c s]; [split; reflexivity|].
    unfold validateFullName.
    match goal with |- context [if ?b then _ else _] => destruct b end;
      cbn [error]; split; discriminate.
  - destruct s as [|c s]; [split; discriminate|].
    unfold validateFullName.
    match goal with |- context [if ?b then _ else _] => destruct b end;
      cbn [error isValid]; split; (discriminate || reflexivity).
  - intros Hne Hs. destruct s as [|c s]; [congruence|].
    unfold validateFullName.
    rewrite split_ws_tokens, ws_tokens_trim, (ws_tokens_blank _ Hs).
    reflexivity.
Qed.

End FullNameWords.

(** ** validateFileSignature: when the verdict is exact *)

Section SignatureExact.
Import Signature.

(** [true] when every byte renders as two hexadecimal digits. *)
Local Abbreviation twoDigits :=
  (forallb (fun b : byte => (16 <=? Byte.to_N b)%N)).

Lemma onloadend_twoDigits (buf : list byte) :
  length buf <= 4 -> twoDigits buf = true ->
  onloadend (Some buf) = matchesMagic buf.
Proof.
  intros Hlen Hpad.
  destruct buf as [|b1 [|b2 [|b3 [|b4 [|b5 buf]]]]];
    try (cbn in Hlen; lia); try reflexivity.
  - destruct b1; try discriminate Hpad; vm_compute; reflexivity.
  - destruct b1; try discriminate Hpad; try (vm_compute; reflexivity);
      destruct b2; try discriminate Hpad; vm_compute; reflexivity.
  - destruct b1; try discriminate Hpad; try (vm_compute; reflexivity);
      destruct b2; try discriminate Hpad; try (vm_compute; reflexivity);
      destruct b3; try discriminate Hpad; vm_compute; reflexivity.
  - destruct b1; try discriminate Hpad; try (vm_compute; reflexivity);
      destruct b2; try discriminate Hpad; try (vm_compute; reflexivity);
      destruct b3; try discriminate Hpad; try (vm_compute; reflexivity);
      destruct b4; try discriminate Hpad; vm_compute; reflexivity.
Qed.

(** X5: files that do start with one of the four magic numbers always pass
    the signature check (there is no false rejection). *)
Theorem validateFileSignature_accepts_magic (file : File) :
  matchesMagic (slice file 0 4) = true ->
  validateFileSignature true file = true.
Proof.
  intros Hmagic. unfold validateFileSignature, readAsArrayBuffer.
  apply onloadend_magic; [|exact Hmagic].
  rewrite slice_length. lia.
Qed.

Lemma validateFileSignature_accepts_magic_witness :
  validateFileSignature true Samples.webp = true.
Proof.
  apply (validateFileSignature_accepts_magic Samples.webp).
  vm_compute; reflexivity.
Defined.

(** X6: when each of the (at most four) bytes read is 16 or more, so that it
    renders as two hexadecimal digits, the check accepts the file exactly
    when its content starts with one of the four magic numbers. *)
Theorem validateFileSignature_exact_on_two_digit_bytes (file : File) :
  forallb (fun b => (16 <=? Byte.to_N b)%N) (slice file 0 4) = true ->
  validateFileSignature true file = matchesMagic (slice file 0 4).
Proof.
  intros Hpad. unfold validateFileSignature, readAsArrayBuffer.
  apply onloadend_twoDigits; [|exact Hpad].
  rewrite slice_length. lia.
Qed.

Lemma validateFileSignature_exact_on_two_digit_bytes_witness :
  validateFileSignature true MoreSamples.pdf
  = matchesMagic (slice MoreSamples.pdf 0 4).
Proof.
  apply (validateFileSignature_exact_on_two_digit_bytes MoreSamples.pdf).
  vm_compute; reflexivity.
Defined.

End SignatureExact.

(** ** onFileChange: the accepted path and what is left alone *)

Section FileChangeMore.
Import Modal.

Ltac unfold_modal :=
  unfold run, onFileChange, awaitValidateFileSignature, processAndUploadAvatar,
    uploadBody, handleSave, majorsEffect, onSuccess, onClose,
    try_catch_finally, fetch, toast_info, toast_success, toast_error,
    throw, await, getState, modify, modifyDash, emit,
    mbind, M_bind, bind, mret, M_ret, ret.

(** X7: a file whose declared type is not one of the four allowed types is
    turned down at once: no byte of it is read, the only event is the
    "Invalid file type" toast, and the state is as before. *)
Theorem onFileChange_type_gate
  (env : Env) (file : Signature.File) (d : Dashboard.State) (s : State) :
  existsb (String.eqb (Signature.type file)) allowedTypes = false ->
  run (onFileChange env (Some file)) d s
  = (Ok tt,
     {| dash := d; modal := s;
        trace := [ EvToast ToastError "Invalid file type"
                     (Some "Please upload an image (JPEG, PNG, WEBP, GIF)") ] |}).
Proof. intros Htype. unfold_modal. now rewrite Htype. Qed.

Lemma onFileChange_type_gate_witness :
  run (onFileChange Samples.env (Some MoreSamples.pdf)) Samples.page
      Samples.opened
  = (Ok tt,
     {| dash := Samples.page; modal := Samples.opened;
        trace := [ EvToast ToastError "Invalid file type"
                     (Some "Please upload an image (JPEG, PNG, WEBP, GIF)") ] |}).
Proof.
  apply (onFileChange_type_gate Samples.env MoreSamples.pdf Samples.page
           Samples.opened).
  vm_compute; reflexivity.
Defined.

(** X8: a file of an allowed type that passes the signature check, is at
    most 20 MiB (20 MiB itself included) and can be read as a data URL
    opens the cropper on that data URL with the crop reset to the origin,
    the zoom to 1 and no crop area; the file input is cleared, nothing is
    shown to the user and no request is made. *)
Theorem onFileChange_opens_cropper
  (env : Env) (file : Signature.File) (d : Dashboard.State) (s : State)
  (dataURL : string) :
  existsb (String.eqb (Signature.type file)) allowedTypes = true ->
  Signature.validateFileSignature (fileReadable env file) file = true ->
  (Signature.size file <= 20 * 1024 * 1024)%N ->
  readAsDataURL env file = Some dataURL ->
  let '(r, w) := run (onFileChange env (Some file)) d s in
  r = Ok tt /\ dash w = d
  /\ isCroppingOpen (modal w) = true
  /\ cropImage (modal w) = Some dataURL
  /\ crop (modal w) = {| point_x := 0; point_y := 0 |}
  /\ zoom (modal w) = 1%Q
  /\ croppedAreaPixels (modal w) = None
  /\ fileUploadRef (modal w) = (fun _ => "") <$> fileUploadRef s
  /\ trace w
     = [ EvReadAsArrayBuffer (Signature.slice file 0 4);
         EvReadAsDataURL (Signature.name file) ].
Proof.
  intros Htype Hsig Hsize Hread. apply N.ltb_ge in Hsize.
  unfold_modal. rewrite Htype. cbn [negb modal dash trace app].
  rewrite Hsig. cbn [negb]. rewrite Hsize, Hread.
  cbn. destruct (fileUploadRef s) eqn:Href; cbn; rewrite ?Href;
    repeat split; reflexivity.
Qed.

Lemma onFileChange_opens_cropper_witness :
  let '(r, w) := run (onFileChange Samples.env (Some Samples.png))
                     Samples.page Samples.opened in
  r = Ok tt /\ dash w = Samples.page
  /\ isCroppingOpen (modal w) = true
  /\ cropImage (modal w) = Some "data:image/png;base64,iVBORw0KGgo="
  /\ crop (modal w) = {| point_x := 0; point_y := 0 |}
  /\ zoom (modal w) = 1%Q
  /\ croppedAreaPixels (modal w) = None
  /\ fileUploadRef (modal w) = (fun _ => "") <$> fileUploadRef Samples.opened
  /\ trace w
     = [ EvReadAsArrayBuffer (Signature.slice Samples.png 0 4);
         EvReadAsDataURL (Signature.name Samples.png) ].
Proof.
  apply (onFileChange_opens_cropper Samples.env Samples.png Samples.page
           Samples.opened "data:image/png;base64,iVBORw0KGgo=");
    vm_compute; (reflexivity || discriminate).
Defined.

(** X9: the cropper is opened by [onFileChange] only for a file that
    passed the three gates: allowed declared type, accepted signature, at
    most 20 MiB. *)
Theorem onFileChange_opens_only_after_gates
  (env : Env) (file : option Signature.File) (d : Dashboard.State)
  (s : State) :
  isCroppingOpen s = false ->
  isCroppingOpen (modal (snd (run (onFileChange env file) d s))) = true ->
  exists f,
    file = Some f
    /\ existsb (String.eqb (Signature.type f)) allowedTypes = true
    /\ Signature.validateFileSignature (fileReadable env f) f = true
    /\ (Signature.size f <= 20 * 1024 * 1024)%N
    /\ is_Some (readAsDataURL env f).
Proof.
  intros Hclosed. unfold_modal.
  destruct file as [f|]; [|cbn; congruence].
  destruct (existsb _ allowedTypes) eqn:Htype; cbn [negb];
    [|cbn; congruence].
  cbn [modal dash trace app].
  destruct (Signature.validateFileSignature _ f) eqn:Hsig; cbn [negb];
    [|cbn; congruence].
  destruct (N.ltb_spec (20 * 1024 * 1024) (Signature.size f)) as [Hbig|Hsmall];
    [cbn; congruence|].
  destruct (readAsDataURL env f) as [u|] eqn:Hread; [|cbn; congruence].
  intros _. exists f. repeat split; eauto.
Qed.

Lemma onFileChange_opens_only_after_gates_witness :
  exists f,
    Some Samples.gif = Some f
    /\ existsb (String.eqb (Signature.type f)) allowedTypes = true
    /\ Signature.validateFileSignature (fileReadable Samples.env f) f = true
    /\ (Signature.size f <= 20 * 1024 * 1024)%N
    /\ is_Some (readAsDataURL Samples.env f).
Proof.
  apply (onFileChange_opens_only_after_gates Samples.env (Some Samples.gif)
           Samples.page Samples.opened);
    vm_compute; reflexivity.
Defined.

(** X10: choosing a file never touches what the form has staged or what
    the page shows: phone number, graduation date, major, preview and
    avatar key are as before, the page state is as before, and no request
    is sent and no callback of the dialog is called. *)
Theorem onFileChange_keeps_staged_values
  (env : Env) (file : option Signature.File) (d : Dashboard.State)
  (s : State) :
  let '(r, w) := run (onFileChange env file) d s in
  r = Ok tt /\ dash w = d
  /\ phoneNumber (modal w) = phoneNumber s
  /\ expectedGrad (modal w) = expectedGrad s
  /\ selectedMajor (modal w) = selectedMajor s
  /\ preview (modal w) = preview s
  /\ avatarKey (modal w) = avatarKey s
  /\ isSaving (modal w) = isSaving s
  /\ isUploading (modal w) = isUploading s
  /\ Forall (fun ev =>
               match ev with
               | EvFetch _ _ | EvOnSuccess _ | EvOnClose => False
               | _ => True
               end) (trace w).
Proof.
  unfold_modal.
  destruct file as [f|]; [|cbn; auto 12].
  destruct (existsb _ allowedTypes); cbn [negb modal dash trace app];
    [|cbn; auto 12].
  destruct (Signature.validateFileSignature _ f); cbn [negb];
    [|cbn; auto 12].
  destruct (_ <? _)%N; [cbn; auto 12|].
  destruct (readAsDataURL env f); cbn; [|auto 12].
  destruct (fileUploadRef s); cbn; auto 12.
Qed.

End FileChangeMore.

(** ** processAndUploadAvatar: guard, stages and cleanup *)

Section UploadMore.
Import Modal Outcome.

Ltac unfold_modal :=
  unfold run, onFileChange, awaitValidateFileSignature, processAndUploadAvatar,
    uploadBody, handleSave, majorsEffect, onSuccess, onClose,
    try_catch_finally, fetch, toast_info, toast_success, toast_error,
    throw, await, getState, modify, modifyDash, emit,
    mbind, M_bind, bind, mret, M_ret, ret.

Ltac done_run :=
  solve [ cbn; repeat split; try reflexivity; try assumption;
          try solve [repeat constructor]; try (eexists; reflexivity) ].

(** Case analysis on everything the environment answers during a run. *)
Ltac upload_cases env s :=
  destruct (cropImage s) as [img|] eqn:Himg; [|done_run];
  destruct (croppedAreaPixels s) as [area|] eqn:Harea; [|done_run];
  destruct (truthy img) eqn:Htruthy; cbn [negb]; [|done_run];
  destruct (getCroppedImg env img area) as [cropped|e]; [|done_run];
  destruct (imageCompression env _ _) as [compressed|e]; [|done_run];
  rewrite ?uploadUrlRequest_avatar;
  destruct (fetchUploadUrl env _) as [e|[|] [t|e]]; try done_run;
  destruct (fetchPost env _ _) as [e|[|] body]; done_run.

(** X11: without a picture to crop or without a crop area the handler does
    nothing at all: no toast, no request, no change of state. *)
Theorem processAndUploadAvatar_guard
  (env : Env) (d : Dashboard.State) (s : State) :
  truthy_opt (cropImage s) = false \/ croppedAreaPixels s = None ->
  run (processAndUploadAvatar env) d s
  = (Ok tt, {| dash := d; modal := s; trace := [] |}).
Proof.
  intros Hguard. unfold_modal. cbn [modal dash trace].
  destruct (cropImage s) as [img|]; [|reflexivity].
  destruct (croppedAreaPixels s) as [area|].
  - destruct Hguard as [Himg|Harea]; [|discriminate].
    cbn in Himg. now rewrite Himg.
  - reflexivity.
Qed.

Lemma processAndUploadAvatar_guard_witness :
  run (processAndUploadAvatar Samples.env) Samples.page Samples.opened
  = (Ok tt, {| dash := Samples.page; modal := Samples.opened; trace := [] |}).
Proof.
  apply (processAndUploadAvatar_guard Samples.env Samples.page Samples.opened).
  left. reflexivity.
Defined.

(** X12: whatever happens during a run, the handler returns normally and
    leaves alone the page, the staged phone number, graduation date and
    major, the saving flag, and the crop position, zoom and area; it reads
    no file and calls neither [onSuccess] nor [onClose]. *)
Theorem processAndUploadAvatar_frame
  (env : Env) (d : Dashboard.State) (s : State) :
  let '(r, w) := run (processAndUploadAvatar env) d s in
  r = Ok tt /\ dash w = d
  /\ phoneNumber (modal w) = phoneNumber s
  /\ expectedGrad (modal w) = expectedGrad s
  /\ selectedMajor (modal w) = selectedMajor s
  /\ majors (modal w) = majors s
  /\ isSaving (modal w) = isSaving s
  /\ crop (modal w) = crop s
  /\ zoom (modal w) = zoom s
  /\ croppedAreaPixels (modal w) = croppedAreaPixels s
  /\ fileUploadRef (modal w) = fileUploadRef s
  /\ Forall (fun ev =>
               match ev with
               | EvToast _ _ _ | EvFetch _ _ => True
               | _ => False
               end) (trace w).
Proof.
  unfold_modal. cbn [modal dash trace].
  upload_cases env s.
Qed.



(** X14: when the picture cannot be cropped (the image does not load, no
    2d context is available, or the canvas yields no blob) the run stops
    there: nothing is requested from the network, the preview and the
    avatar key stay as they were, and the user is told "Upload failed"
    with the reason ("No 2d context", "Canvas is empty", or none for an
    image that did not load). *)
Theorem processAndUploadAvatar_crop_failure
  (env : Env) (d : Dashboard.State) (s : State) (img : string) (area : Area) :
  cropImage s = Some img -> truthy img = true ->
  croppedAreaPixels s = Some area ->
  imageLoads env img = false \/ getContext2d env = false
  \/ canvasToBlob env img area = None ->
  let w := snd (run (processAndUploadAvatar env) d s) in
  preview (modal w) = preview s
  /\ avatarKey (modal w) = avatarKey s
  /\ trace w
     = [ EvToast ToastInfo "Processing image..." None;
         EvToast ToastError "Upload failed"
           (if imageLoads env img then
              if getContext2d env then Some "Canvas is empty"
              else Some "No 2d context"
            else None) ].
Proof.
  intros Himg Htruthy Harea Hfail. unfold_modal. cbn [modal dash trace].
  rewrite Himg, Harea, Htruthy. cbn [negb]. unfold getCroppedImg.
  destruct (imageLoads env img); [|done_run].
  destruct (getContext2d env); [|done_run].
  destruct (canvasToBlob env img area); [|done_run].
  destruct Hfail as [H|[H|H]]; discriminate H.
Qed.

Lemma processAndUploadAvatar_crop_failure_witness :
  let w := snd (run (processAndUploadAvatar MoreSamples.envNoContext)
                    Samples.page Samples.cropping) in
  preview (modal w) = preview Samples.cropping
  /\ avatarKey (modal w) = avatarKey Samples.cropping
  /\ trace w
     = [ EvToast ToastInfo "Processing image..." None;
         EvToast ToastError "Upload failed" (Some "No 2d context") ].
Proof.
  apply (processAndUploadAvatar_crop_failure MoreSamples.envNoContext
           Samples.page Samples.cropping
           "data:image/png;base64,iVBORw0KGgo="
           {| area_x := 10; area_y := 20; width := 300; height := 300 |});
    try reflexivity.
  right. left. reflexivity.
Defined.

(** X15: when the compression of the cropped picture fails, the run stops
    before any request: the preview and the avatar key stay as they were
    and the message of the failure is shown under "Upload failed". *)
Theorem processAndUploadAvatar_compression_failure
  (env : Env) (d : Dashboard.State) (s : State) (img : string) (area : Area)
  (cropped : Blob) (message : option string) :
  cropImage s = Some img -> truthy img = true ->
  croppedAreaPixels s = Some area ->
  getCroppedImg env img area = Ok cropped ->
  imageCompression env (newFile cropped "avatar.webp" "image/webp")
    compressionOptions = Throw message ->
  let w := snd (run (processAndUploadAvatar env) d s) in
  preview (modal w) = preview s
  /\ avatarKey (modal w) = avatarKey s
  /\ trace w
     = [ EvToast ToastInfo "Processing image..." None;
         EvToast ToastError "Upload failed" message ].
Proof.
  intros Himg Htruthy Harea Hcrop Hcompress.
  unfold_modal. cbn [modal dash trace].
  rewrite Himg, Harea, Htruthy. cbn [negb]. rewrite Hcrop, Hcompress.
  done_run.
Qed.

Lemma processAndUploadAvatar_compression_failure_witness :
  let w := snd (run (processAndUploadAvatar MoreSamples.envCompressionFails)
                    Samples.page Samples.cropping) in
  preview (modal w) = preview Samples.cropping
  /\ avatarKey (modal w) = avatarKey Samples.cropping
  /\ trace w
     = [ EvToast ToastInfo "Processing image..." None;
         EvToast ToastError "Upload failed" (Some "Compression failed") ].
Proof.
  apply (processAndUploadAvatar_compression_failure
           MoreSamples.envCompressionFails Samples.page Samples.cropping
           "data:image/png;base64,iVBORw0KGgo="
           {| area_x := 10; area_y := 20; width := 300; height := 300 |}
           Samples.webpBlob (Some "Compression failed"));
    reflexivity.
Defined.

(** X16: the events of a run always follow one of five shapes: nothing (the
    guard); the processing notice and an error; the notice, the GET for an
    upload URL and an error; the notice, the GET, one POST and an error;
    the notice, the GET, one POST and the success toast.  So there is at most
    one GET and one POST, the POST never comes without the GET before it,
    and success is announced only after both. *)
Theorem processAndUploadAvatar_trace_shape
  (env : Env) (d : Dashboard.State) (s : State) :
  let t := trace (snd (run (processAndUploadAvatar env) d s)) in
  let notice := EvToast ToastInfo "Processing image..." None in
  let get := EvFetch "GET" (avatarUploadUrl env) in
  t = []
  \/ (exists e, t = [notice; EvToast ToastError "Upload failed" e])
  \/ (exists e, t = [notice; get; EvToast ToastError "Upload failed" e])
  \/ (exists url e,
        t = [notice; get; EvFetch "POST" url;
             EvToast ToastError "Upload failed" e])
  \/ (exists url,
        t = [notice; get; EvFetch "POST" url;
             EvToast ToastSuccess "Profile picture updated!" None]).
Proof.
  unfold_modal. cbn [modal dash trace].
  destruct (cropImage s) as [img|]; [|left; reflexivity].
  destruct (croppedAreaPixels s) as [area|]; [|left; reflexivity].
  destruct (truthy img); cbn [negb]; [|left; reflexivity].
  destruct (getCroppedImg env img area) as [cropped|e];
    [|right; left; eexists; reflexivity].
  destruct (imageCompression env _ _) as [compressed|e];
    [|right; left; eexists; reflexivity].
  rewrite uploadUrlRequest_avatar.
  destruct (fetchUploadUrl env _) as [e|[|] [t|e]];
    try (right; right; left; eexists; reflexivity).
  destruct (fetchPost env _ _) as [e|[|] body].
  - right; right; right; left. eexists _, _. reflexivity.
  - right; right; right; right. eexists. reflexivity.
  - right; right; right; left. eexists _, _. reflexivity.
Qed.

(** X17: when every stage succeeds, the key that came with the upload URL
    becomes the avatar key, the preview shows the object URL of the
    compressed picture, and the POST went to the URL the backend named. *)
Theorem processAndUploadAvatar_success
  (env : Env) (d : Dashboard.State) (s : State) (img : string) (area : Area)
  (cropped compressed : Blob) (target : UploadTarget) (body : result unit) :
  cropImage s = Some img -> truthy img = true ->
  croppedAreaPixels s = Some area ->
  getCroppedImg env img area = Ok cropped ->
  imageCompression env (newFile cropped "avatar.webp" "image/webp")
    compressionOptions = Ok compressed ->
  let uploadFile := newFile compressed "avatar.webp" "image/webp" in
  fetchUploadUrl env (avatarUploadUrl env) = Resolves true (Ok target) ->
  fetchPost env (uploadUrl target) (uploadFormData (fields target) uploadFile)
  = Resolves true body ->
  let w := snd (run (processAndUploadAvatar env) d s) in
  avatarKey (modal w) = Some (key target)
  /\ preview (modal w) = Some (createObjectURL env uploadFile)
  /\ trace w
     = [ EvToast ToastInfo "Processing image..." None;
         EvFetch "GET" (avatarUploadUrl env);
         EvFetch "POST" (uploadUrl target);
         EvToast ToastSuccess "Profile picture updated!" None ].
Proof.
  intros Himg Htruthy Harea Hcrop Hcompress uploadFile Hurl Hpost.
  subst uploadFile. unfold_modal. cbn [modal dash trace].
  rewrite Himg, Harea, Htruthy. cbn [negb]. rewrite Hcrop, Hcompress.
  rewrite uploadUrlRequest_avatar, Hurl. cbn [negb]. rewrite Hpost.
  done_run.
Qed.

Lemma processAndUploadAvatar_success_witness :
  let w := snd (run (processAndUploadAvatar Samples.env) Samples.page
                    Samples.cropping) in
  avatarKey (modal w) = Some "avatars/42/avatar.webp"
  /\ preview (modal w) = Some "blob:https://portal.example/7f3a"
  /\ trace w
     = [ EvToast ToastInfo "Processing image..." None;
         EvFetch "GET" (avatarUploadUrl Samples.env);
         EvFetch "POST" "https://bucket.example/upload";
         EvToast ToastSuccess "Profile picture updated!" None ].
Proof.
  apply (processAndUploadAvatar_success Samples.env Samples.page
           Samples.cropping "data:image/png;base64,iVBORw0KGgo="
           {| area_x := 10; area_y := 20; width := 300; height := 300 |}
           Samples.webpBlob Samples.webpBlob Samples.target (Ok tt));
    reflexivity.
Defined.

(** X18: the two phases of the upload fail with messages of their own: an
    error status for the upload URL gives "Failed to get upload URL" and no
    POST; an error status from the storage gives "Failed to upload to S3". *)
Theorem processAndUploadAvatar_phase_messages
  (env : Env) (d : Dashboard.State) (s : State) (img : string) (area : Area)
  (cropped compressed : Blob) :
  cropImage s = Some img -> truthy img = true ->
  croppedAreaPixels s = Some area ->
  getCroppedImg env img area = Ok cropped ->
  imageCompression env (newFile cropped "avatar.webp" "image/webp")
    compressionOptions = Ok compressed ->
  let uploadFile := newFile compressed "avatar.webp" "image/webp" in
  let t := trace (snd (run (processAndUploadAvatar env) d s)) in
  let notice := EvToast ToastInfo "Processing image..." None in
  let get := EvFetch "GET" (avatarUploadUrl env) in
  match fetchUploadUrl env (avatarUploadUrl env) with
  | Resolves false _ =>
      t = [notice; get;
           EvToast ToastError "Upload failed" (Some "Failed to get upload URL")]
  | Resolves true (Ok target) =>
      match
        fetchPost env (uploadUrl target)
          (uploadFormData (fields target) uploadFile)
      with
      | Resolves false _ =>
          t = [notice; get; EvFetch "POST" (uploadUrl target);
               EvToast ToastError "Upload failed"
                 (Some "Failed to upload to S3")]
      | Rejects e =>
          t = [notice; get; EvFetch "POST" (uploadUrl target);
               EvToast ToastError "Upload failed" e]
      | Resolves true _ =>
          t = [notice; get; EvFetch "POST" (uploadUrl target);
               EvToast ToastSuccess "Profile picture updated!" None]
      end
  | Resolves true (Throw e) | Rejects e =>
      t = [notice; get; EvToast ToastError "Upload failed" e]
  end.
Proof.
  intros Himg Htruthy Harea Hcrop Hcompress uploadFile.
  subst uploadFile. unfold_modal. cbn [modal dash trace].
  rewrite Himg, Harea, Htruthy. cbn [negb]. rewrite Hcrop, Hcompress.
  rewrite uploadUrlRequest_avatar.
  destruct (fetchUploadUrl env _) as [e|[|] [t|e]]; try reflexivity.
  destruct (fetchPost env _ _) as [e|[|] body]; reflexivity.
Qed.

Lemma processAndUploadAvatar_phase_messages_witness :
  trace (snd (run (processAndUploadAvatar MoreSamples.envStorageRefuses)
                  Samples.page Samples.cropping))
  = [ EvToast ToastInfo "Processing image..." None;
      EvFetch "GET" (avatarUploadUrl MoreSamples.envStorageRefuses);
      EvFetch "POST" "https://bucket.example/upload";
      EvToast ToastError "Upload failed" (Some "Failed to upload to S3") ].
Proof.
  apply (processAndUploadAvatar_phase_messages MoreSamples.envStorageRefuses
           Samples.page Samples.cropping
           "data:image/png;base64,iVBORw0KGgo="
           {| area_x := 10; area_y := 20; width := 300; height := 300 |}
           Samples.webpBlob Samples.webpBlob);
    reflexivity.
Defined.

End UploadMore.

(** ** handleSave and the majors effect *)

Section SaveMore.
Import Modal Outcome.

Ltac unfold_modal :=
  unfold run, onFileChange, awaitValidateFileSignature, processAndUploadAvatar,
    uploadBody, handleSave, majorsEffect, onSuccess, onClose,
    try_catch_finally, fetch, toast_info, toast_success, toast_error,
    throw, await, getState, modify, modifyDash, emit,
    mbind, M_bind, bind, mret, M_ret, ret.

(** X19: a save always comes to an end, whatever the backend answers: the
    handler returns normally, the saving flag is cleared and every other
    cell of the form is as it was; exactly one request is sent, the PATCH
    to the record of the user, and it is the first thing that happens. *)
Theorem handleSave_settles
  (env : Env) (user : UserInformationDetail.t)
  (d : Dashboard.State) (s : State) :
  let '(r, w) := run (handleSave env user) d s in
  r = Ok tt
  /\ modal w = setIsSaving false s
  /\ exists rest,
       trace w = EvFetch "PATCH" (patchUrl env user) :: rest
       /\ Forall (fun ev =>
                    match ev with EvFetch _ _ => False | _ => True end) rest.
Proof.
  unfold_modal. cbn [modal dash trace].
  destruct (fetchPatch env _ _) as [e|[|] [err|e]]; cbn;
    (split; [reflexivity|]); (split; [reflexivity|]);
    eexists; (split; [reflexivity|]); repeat constructor.
Qed.

(** X20: a successful save closes the dialog and replaces the user of the
    page, and nothing else of the page: the team lookup map and the loading
    flag are kept, and the role entries computed for the new record are
    those of the old one. *)
Theorem handleSave_keeps_role_entries
  (env : Env) (user : UserInformationDetail.t)
  (d : Dashboard.State) (s : State) (json : result ErrorBody) :
  fetchPatch env (patchUrl env user) (patchBody s) = Resolves true json ->
  let w := snd (run (handleSave env user) d s) in
  Dashboard.isEditModalOpen (dash w) = false
  /\ Dashboard.userTeamsMap (dash w) = Dashboard.userTeamsMap d
  /\ Dashboard.loading (dash w) = Dashboard.loading d
  /\ exists merged,
       Dashboard.user (dash w) = Some merged
       /\ Dashboard.roleEntries
            (UserAttributeDefinition.roles
               (UserInformationDetail.attributes merged))
            (Dashboard.userTeamsMap (dash w))
          = Dashboard.roleEntries
              (UserAttributeDefinition.roles
                 (UserInformationDetail.attributes user))
              (Dashboard.userTeamsMap d).
Proof.
  intros Hpatch w. subst w.
  rewrite (handleSave_success env user d s json Hpatch).
  cbn. repeat split. eexists. split; reflexivity.
Qed.

Lemma handleSave_keeps_role_entries_witness :
  let w := snd (run (handleSave Samples.env Samples.user) Samples.page
                    Samples.phoneEdited) in
  Dashboard.isEditModalOpen (dash w) = false
  /\ Dashboard.userTeamsMap (dash w) = Dashboard.userTeamsMap Samples.page
  /\ Dashboard.loading (dash w) = Dashboard.loading Samples.page
  /\ exists merged,
       Dashboard.user (dash w) = Some merged
       /\ Dashboard.roleEntries
            (UserAttributeDefinition.roles
               (UserInformationDetail.attributes merged))
            (Dashboard.userTeamsMap (dash w))
          = Dashboard.roleEntries
              (UserAttributeDefinition.roles
                 (UserInformationDetail.attributes Samples.user))
              (Dashboard.userTeamsMap Samples.page).
Proof.
  apply (handleSave_keeps_role_entries Samples.env Samples.user Samples.page
           Samples.phoneEdited (Ok {| message := None |})).
  reflexivity.
Defined.

Lemma or_str_idem (a b : string) : or_str a (or_str a b) = or_str a b.
Proof. unfold or_str. now destruct (truthy a). Qed.

Lemma or_opt_str_idem (a : option string) (b : string) :
  or_opt_str a (or_opt_str a b) = or_opt_str a b.
Proof. destruct a as [a|]; cbn; [|reflexivity]. now destruct (truthy a). Qed.

Lemma or_opt_idem (a b : option string) : or_opt a (or_opt a b) = or_opt a b.
Proof. unfold or_opt. now destruct (truthy_opt a). Qed.

(** X21: merging the same staged values a second time changes nothing: the
    record produced by a save is a fixed point of the merge, so saving
    again without further edits leaves the local record as it is. *)
Theorem mergedUser_idempotent (user : UserInformationDetail.t) (s : State) :
  mergedUser (mergedUser user s) s = mergedUser user s.
Proof.
  unfold mergedUser.
  cbn [UserInformationDetail.attributes UserInformationDetail.avatar
       UserInformationDetail.pk UserInformationDetail.username
       UserInformationDetail.name UserInformationDetail.email
       UserInformationDetail.memberSince UserInformationDetail.active
       UserInformationDetail.is_superuser UserInformationDetail.groups
       UserInformationDetail.last_login UserInformationDetail.type
       UserInformationDetail.groupsInfo
       UserAttributeDefinition.major UserAttributeDefinition.expectedGrad
       UserAttributeDefinition.phoneNumber UserAttributeDefinition.roles
       UserAttributeDefinition.alumniAccount UserAttributeDefinition.avatar].
  now rewrite or_str_idem, !or_opt_str_idem, or_opt_idem.
Qed.

(** X22: a picture that was uploaded successfully and then saved
    successfully ends up in the user of the page: the PATCH carries the key
    returned with the upload URL, the merged record has that key as its
    avatar and the object URL of the compressed picture as its picture
    (the key and the object URL being non-empty). *)
Theorem upload_then_save
  (env : Env) (user : UserInformationDetail.t) (d : Dashboard.State)
  (s : State) (img : string) (area : Area) (cropped compressed : Blob)
  (target : UploadTarget) (body : result unit) (json : result ErrorBody) :
  cropImage s = Some img -> truthy img = true ->
  croppedAreaPixels s = Some area ->
  getCroppedImg env img area = Ok cropped ->
  imageCompression env (newFile cropped "avatar.webp" "image/webp")
    compressionOptions = Ok compressed ->
  let uploadFile := newFile compressed "avatar.webp" "image/webp" in
  fetchUploadUrl env (avatarUploadUrl env) = Resolves true (Ok target) ->
  fetchPost env (uploadUrl target) (uploadFormData (fields target) uploadFile)
  = Resolves true body ->
  truthy (key target) = true ->
  truthy (createObjectURL env uploadFile) = true ->
  let w1 := snd (run (processAndUploadAvatar env) d s) in
  fetchPatch env (patchUrl env user) (patchBody (modal w1))
  = Resolves true json ->
  let w2 := snd (run (handleSave env user) (dash w1) (modal w1)) in
  body_avatar (patchBody (modal w1)) = Some (key target)
  /\ exists merged,
       Dashboard.user (dash w2) = Some merged
       /\ UserAttributeDefinition.avatar
            (UserInformationDetail.attributes merged) = Some (key target)
       /\ UserInformationDetail.avatar merged = createObjectURL env uploadFile.
Proof.
  intros Himg Htruthy Harea Hcrop Hcompress uploadFile Hurl Hpost Hkey Hobj w1.
  assert (Hw1 : avatarKey (modal w1) = Some (key target)
                /\ preview (modal w1) = Some (createObjectURL env uploadFile)).
  { subst w1 uploadFile. unfold_modal. cbn [modal dash trace].
    rewrite Himg, Harea, Htruthy. cbn [negb]. rewrite Hcrop, Hcompress.
    rewrite uploadUrlRequest_avatar, Hurl. cbn [negb]. rewrite Hpost.
    cbn. split; reflexivity. }
  destruct Hw1 as [Hk Hp]. intros Hpatch w2. subst w2.
  rewrite (handleSave_success env user (dash w1) (modal w1) json Hpatch).
  split; [exact Hk|].
  exists (mergedUser user (modal w1)). split; [reflexivity|].
  unfold mergedUser.
  cbn [UserInformationDetail.attributes UserInformationDetail.avatar
       UserAttributeDefinition.avatar].
  rewrite Hk, Hp. unfold or_opt, or_opt_str. cbn [truthy_opt].
  now rewrite Hkey, Hobj.
Qed.

Lemma upload_then_save_witness :
  let w1 := snd (run (processAndUploadAvatar Samples.env) Samples.page
                     Samples.cropping) in
  let w2 := snd (run (handleSave Samples.env Samples.user) (dash w1)
                     (modal w1)) in
  body_avatar (patchBody (modal w1)) = Some "avatars/42/avatar.webp"
  /\ exists merged,
       Dashboard.user (dash w2) = Some merged
       /\ UserAttributeDefinition.avatar
            (UserInformationDetail.attributes merged)
          = Some "avatars/42/avatar.webp"
       /\ UserInformationDetail.avatar merged
          = "blob:https://portal.example/7f3a".
Proof.
  apply (upload_then_save Samples.env Samples.user Samples.page
           Samples.cropping "data:image/png;base64,iVBORw0KGgo="
           {| area_x := 10; area_y := 20; width := 300; height := 300 |}
           Samples.webpBlob Samples.webpBlob Samples.target (Ok tt)
           (Ok {| message := None |}));
    reflexivity.
Defined.

Lemma find_first {A} (f : A -> bool) (before : list A) (m : A)
  (after : list A) :
  Forall (fun x => f x = false) before -> f m = true ->
  find f (before ++ m :: after) = Some m.
Proof.
  intros Hbefore Hm. induction Hbefore as [|x before Hx _ IH]; cbn.
  - now rewrite Hm.
  - now rewrite Hx.
Qed.

(** X23: when the directory of majors answers with a list (the status of
    the answer is not looked at), the list is kept, nothing is shown to the
    user, and the major of the user is preselected: the selection becomes
    the first entry of the list that has the name of the user's major, and
    it is left as it was when no entry has that name. *)
Theorem majorsEffect_preselects
  (env : Env) (user : UserInformationDetail.t) (d : Dashboard.State)
  (s : State) (ok : bool) (data : list UMDApiMajorListResponse.t) :
  fetchMajors env = Resolves ok (Ok data) ->
  let current :=
    UserAttributeDefinition.major (UserInformationDetail.attributes user) in
  let '(r, w) := run (majorsEffect env user) d s in
  r = Ok tt /\ dash w = d
  /\ majors (modal w) = data
  /\ trace w = [EvFetch "GET" "https://api.umd.io/v1/majors/list"]
  /\ (Forall (fun m => UMDApiMajorListResponse.name m <> current) data ->
      selectedMajor (modal w) = selectedMajor s)
  /\ (forall before m after,
         data = before ++ m :: after ->
         Forall (fun m' => UMDApiMajorListResponse.name m' <> current) before ->
         UMDApiMajorListResponse.name m = current ->
         selectedMajor (modal w) = Some m).
Proof.
  intros Hfetch current. unfold_modal. cbn [modal dash trace].
  rewrite Hfetch. cbn [app].
  match goal with
  | |- context [find ?f data] => destruct (find f data) as [found|] eqn:Hfind
  end; cbn; (split; [reflexivity|]); (split; [reflexivity|]);
    (split; [reflexivity|]); (split; [reflexivity|]); split.
  - intros Hnone. apply find_some in Hfind as [Hin Hname].
    apply String.eqb_eq in Hname. rewrite List.Forall_forall in Hnone.
    now destruct (Hnone found Hin).
  - intros before m after -> Hbefore Hname.
    rewrite (find_first _ before m after) in Hfind; [congruence| |].
    + eapply List.Forall_impl; [|exact Hbefore].
      intros m' Hm'. now apply String.eqb_neq.
    + now apply String.eqb_eq.
  - reflexivity.
  - intros before m after -> _ Hname.
    pose proof (find_none _ _ Hfind m) as Hm.
    rewrite in_app_iff in Hm. cbn in Hm. specialize (Hm (or_intror (or_introl eq_refl))).
    fold current in Hm. rewrite Hname, String.eqb_refl in Hm. discriminate.
Qed.

Lemma majorsEffect_preselects_witness :
  let '(r, w) := run (majorsEffect MoreSamples.envMajors Samples.user)
                     Samples.page Samples.opened in
  r = Ok tt /\ dash w = Samples.page
  /\ majors (modal w) = [MoreSamples.biology; MoreSamples.computerScience]
  /\ trace w = [EvFetch "GET" "https://api.umd.io/v1/majors/list"]
  /\ (Forall (fun m => UMDApiMajorListResponse.name m <> "Computer Science")
             [MoreSamples.biology; MoreSamples.computerScience] ->
      selectedMajor (modal w) = selectedMajor Samples.opened)
  /\ (forall before m after,
         [MoreSamples.biology; MoreSamples.computerScience]
         = before ++ m :: after ->
         Forall (fun m' => UMDApiMajorListResponse.name m' <> "Computer Science")
                before ->
         UMDApiMajorListResponse.name m = "Computer Science" ->
         selectedMajor (modal w) = Some m).
Proof.
  apply (majorsEffect_preselects MoreSamples.envMajors Samples.user
           Samples.page Samples.opened true
           [MoreSamples.biology; MoreSamples.computerScience]).
  reflexivity.
Defined.

(** X24: when the directory of majors cannot be reached, or its answer
    cannot be parsed, the form is left exactly as it was and the user is
    told "Failed to fetch majors"; the failure does not escape the effect. *)
Theorem majorsEffect_failure
  (env : Env) (user : UserInformationDetail.t) (d : Dashboard.State)
  (s : State) :
  (forall ok data, fetchMajors env <> Resolves ok (Ok data)) ->
  run (majorsEffect env user) d s
  = (Ok tt,
     {| dash := d; modal := s;
        trace := [ EvFetch "GET" "https://api.umd.io/v1/majors/list";
                   EvToast ToastError "Failed to fetch majors" None ] |}).
Proof.
  intros Hfail. unfold_modal. cbn [modal dash trace].
  destruct (fetchMajors env) as [e|ok [data|e]]; try reflexivity.
  now destruct (Hfail ok data).
Qed.

Lemma majorsEffect_failure_witness :
  run (majorsEffect MoreSamples.envMajorsDown Samples.user) Samples.page
      Samples.opened
  = (Ok tt,
     {| dash := Samples.page; modal := Samples.opened;
        trace := [ EvFetch "GET" "https://api.umd.io/v1/majors/list";
                   EvToast ToastError "Failed to fetch majors" None ] |}).
Proof.
  apply (majorsEffect_failure MoreSamples.envMajorsDown Samples.user
           Samples.page Samples.opened).
  intros ok data. vm_compute. discriminate.
Defined.

End SaveMore.

(** ** The team lookup map, the role entries and the loading effect *)

Section PageMore.
Import Dashboard.

Implicit Types (teams : list TeamInformationBrief.t)
               (teamsMap : gmap string TeamInformationBrief.t)
               (roles : list (string * string)).

Lemma find_snoc {A} (f : A -> bool) (l : list A) (x : A) :
  find f (l ++ [x])
  = match find f l with
    | Some y => Some y
    | None => if f x then Some x else None
    end.
Proof.
  induction l as [|y l IH]; cbn; [reflexivity|].
  now destruct (f y).
Qed.

(** Looking up a key after the loop of [Map.set]: the last team of the list
    with that pk, or what the map held before. *)
Lemma fold_set_lookup teams teamsMap (k : string) :
  fold_left (fun acc team => <[TeamInformationBrief.pk team := team]> acc)
            teams teamsMap !! k
  = match find (fun team => String.eqb (TeamInformationBrief.pk team) k)
               (rev teams) with
    | Some team => Some team
    | None => teamsMap !! k
    end.
Proof.
  revert teamsMap. induction teams as [|team teams IH]; intros teamsMap.
  - reflexivity.
  - cbn [fold_left rev]. rewrite IH, find_snoc.
    destruct (find _ (rev teams)); [reflexivity|].
    destruct (String.eqb_spec (TeamInformationBrief.pk team) k) as [->|Hne].
    + apply lookup_insert_eq.
    + now apply lookup_insert_ne.
Qed.

(** X25: the lookup map built from the membership answer resolves a pk to
    the last team of the answer that carries this pk, and to nothing when
    no team carries it. *)
Theorem buildTeamsMap_lookup teams (k : string) :
  buildTeamsMap teams !! k
  = find (fun team => String.eqb (TeamInformationBrief.pk team) k) (rev teams).
Proof.
  unfold buildTeamsMap. rewrite fold_set_lookup, lookup_empty.
  now destruct (find _ (rev teams)).
Qed.

(** X26: the role entries come in the order of the user's roles, one for
    each role whose team resolves and none for the others. *)
Theorem roleEntries_order roles teamsMap :
  List.map (fun entry => (teamPk entry, roleTitle entry))
           (roleEntries roles teamsMap)
  = List.filter
      (fun '(pk, _) =>
         match teamsMap !! pk with Some _ => true | None => false end)
      roles.
Proof.
  unfold roleEntries. induction roles as [|[pk title] roles IH].
  - reflexivity.
  - cbn [List.map List.filter teamInfo].
    destruct (teamsMap !! pk); cbn [List.map teamPk roleTitle];
      now rewrite IH.
Qed.

(** X27: over the map built from the fetched teams, every role entry
    carries a team of the answer whose pk is the team pk of the entry, and
    a role of the user gets an entry exactly when some fetched team has its
    pk. *)
Theorem roleEntries_of_fetched_teams roles teams :
  (forall entry,
      In entry (roleEntries roles (buildTeamsMap teams)) ->
      exists info,
        teamInfo entry = Some info
        /\ In info teams
        /\ TeamInformationBrief.pk info = teamPk entry)
  /\ (forall pk title,
         In (pk, title) roles ->
         ((exists entry,
              In entry (roleEntries roles (buildTeamsMap teams))
              /\ teamPk entry = pk /\ roleTitle entry = title)
          <-> In pk (List.map TeamInformationBrief.pk teams))).
Proof.
  assert (Hlook : forall k info,
             buildTeamsMap teams !! k = Some info ->
             In info teams /\ TeamInformationBrief.pk info = k).
  { intros k info. unfold buildTeamsMap.
    rewrite fold_set_lookup, lookup_empty.
    destruct (find _ (rev teams)) as [team|] eqn:Hfind; [|discriminate].
    intros [= <-]. apply find_some in Hfind as [Hin Hpk].
    split; [now apply in_rev | now apply String.eqb_eq]. }
  assert (Hfound : forall k,
             In k (List.map TeamInformationBrief.pk teams) ->
             is_Some (buildTeamsMap teams !! k)).
  { intros k Hin. unfold buildTeamsMap.
    rewrite fold_set_lookup, lookup_empty.
    destruct (find _ (rev teams)) as [team|] eqn:Hfind; [eauto|].
    apply in_map_iff in Hin as (team & <- & Hin).
    apply in_rev in Hin.
    pose proof (find_none _ _ Hfind team Hin) as Hpk. cbn in Hpk.
    now rewrite String.eqb_refl in Hpk. }
  split.
  - intros entry Hentry.
    apply in_roleEntries in Hentry as (info & _ & Hlookup & Hinfo).
    exists info. destruct (Hlook _ _ Hlookup). auto.
  - intros pk title Hrole. split.
    + intros (entry & Hentry & <- & <-).
      apply in_roleEntries in Hentry as (info & _ & Hlookup & _).
      destruct (Hlook _ _ Hlookup) as [Hin <-].
      now apply in_map.
    + intros Hpk. destruct (Hfound pk Hpk) as [info Hlookup].
      exists {| teamPk := pk; roleTitle := title; teamInfo := Some info |}.
      split; [|auto]. apply in_roleEntries. exists info. auto.
Qed.

Import Modal Page.

(** X28: whatever the backend answers, a run of [fetchData] ends with the
    loading flag cleared and the edit flag as it was; it asks for the user
    first, without credentials, and asks for the memberships (with
    credentials, under the fetched username) only once the user has been
    fetched and stored. *)
Theorem fetchData_settles
  (env : Page.Env) (userPk : string) (s : Dashboard.State) :
  let '(s', events) := fetchData env userPk s in
  loading s' = false
  /\ isEditModalOpen s' = isEditModalOpen s
  /\ exists rest,
       events = EvRequest (userUrl env userPk) false :: rest
       /\ ((user s' = user s /\ userTeamsMap s' = userTeamsMap s
            /\ exists e, rest = [EvConsoleError e])
           \/ exists userData,
                fetchUser env (userUrl env userPk) = Resolves true (Ok userData)
                /\ user s' = Some userData
                /\ (rest = [EvRequest (memberOfUrl env userData) true]
                    \/ exists e,
                         rest = [EvRequest (memberOfUrl env userData) true;
                                 EvConsoleError e])).
Proof.
  unfold fetchData, fetchDataBody.
  destruct (fetchUser env _) as [e|[|] [userData|e]];
    try (cbn; repeat split; eexists; split; [reflexivity|]; left;
         repeat split; eexists; reflexivity).
  destruct (fetchMemberOf env _) as [e|[|] [teamsData|e]];
    cbn; repeat split; eexists; (split; [reflexivity|]); right;
    exists userData; repeat split; eauto.
Qed.

(** X29: when the user cannot be fetched (the request fails, the status is
    an error, or the body cannot be read), the user and the lookup map of
    the page stay as they were, the memberships are not asked for, and the
    error is written to the console. *)
Theorem fetchData_user_failure
  (env : Page.Env) (userPk : string) (s : Dashboard.State) :
  (forall userData,
      fetchUser env (userUrl env userPk) <> Resolves true (Ok userData)) ->
  exists e,
    fetchData env userPk s
    = (setLoading false s,
       [EvRequest (userUrl env userPk) false; EvConsoleError e])
    /\ (forall json,
           fetchUser env (userUrl env userPk) = Resolves false json ->
           e = Some "Failed to fetch user").
Proof.
  intros Hfail. unfold fetchData, fetchDataBody.
  destruct (fetchUser env _) as [e|[|] [userData|e]].
  - exists e. split; [reflexivity | discriminate].
  - now destruct (Hfail userData).
  - exists e. split; [reflexivity | discriminate].
  - eexists. split; [reflexivity | reflexivity].
  - eexists. split; [reflexivity | reflexivity].
Qed.

Lemma fetchData_user_failure_witness :
  exists e,
    fetchData MoreSamples.pageEnvDown "42" Dashboard.initial
    = (setLoading false Dashboard.initial,
       [EvRequest (userUrl MoreSamples.pageEnvDown "42") false;
        EvConsoleError e])
    /\ (forall json,
           fetchUser MoreSamples.pageEnvDown
             (userUrl MoreSamples.pageEnvDown "42") = Resolves false json ->
           e = Some "Failed to fetch user").
Proof.
  apply (fetchData_user_failure MoreSamples.pageEnvDown "42"
           Dashboard.initial).
  intros userData. vm_compute. discriminate.
Defined.

(** X30: once the user has been fetched it is stored, whatever becomes of
    the memberships request.  An answer with a success status replaces
    the lookup map by the map of its teams (the empty map when the answer
    has no [teams]); an error status leaves the map as it was and is not
    reported; a failed request or an unreadable body leaves the map as it
    was and is written to the console. *)
Theorem fetchData_memberships
  (env : Page.Env) (userPk : string) (s : Dashboard.State)
  (userData : UserInformationDetail.t) :
  fetchUser env (userUrl env userPk) = Resolves true (Ok userData) ->
  let '(s', events) := fetchData env userPk s in
  let requests :=
    [ EvRequest (userUrl env userPk) false;
      EvRequest (memberOfUrl env userData) true ] in
  user s' = Some userData
  /\ match fetchMemberOf env (memberOfUrl env userData) with
     | Resolves true (Ok teamsData) =>
         userTeamsMap s' = buildTeamsMap (default [] (teams teamsData))
         /\ events = requests
     | Resolves false _ =>
         userTeamsMap s' = userTeamsMap s /\ events = requests
     | Resolves true (Throw e) | Rejects e =>
         userTeamsMap s' = userTeamsMap s
         /\ events = requests ++ [EvConsoleError e]
     end.
Proof.
  intros Huser. unfold fetchData, fetchDataBody. rewrite Huser.
  destruct (fetchMemberOf env _) as [e|[|] [teamsData|e]];
    cbn; repeat split; reflexivity.
Qed.

Lemma fetchData_memberships_witness :
  let '(s', events) := fetchData MoreSamples.pageEnv "42" Dashboard.initial in
  user s' = Some Samples.user
  /\ userTeamsMap s' = buildTeamsMap [MoreSamples.team1; Samples.team2]
  /\ events
     = [ EvRequest (userUrl MoreSamples.pageEnv "42") false;
         EvRequest (memberOfUrl MoreSamples.pageEnv Samples.user) true ].
Proof.
  apply (fetchData_memberships MoreSamples.pageEnv "42" Dashboard.initial
           Samples.user).
  reflexivity.
Defined.

End PageMore.
